(** * City Energy Analyst: network-layout orchestrator and ArcGIS toolbox adapter

    A shallow embedding of
      - [cea/concept_project/network_layout_main.py]  (module [NetworkLayout])
      - [cea/interfaces/arcgis/CityEnergyAnalyst.py]  (module [ArcGIS])
    and the properties of the two that the specification states.

    Both files are glue code: what they compute is the order, the arguments
    and the outcome of calls into collaborators (GIS stages, the [cea.cli]
    child process, [arcpy], the file system).  The collaborators are taken as
    parameters; every call into one is recorded, in program order, in a
    trace.

    Exceptions are modelled where the source raises them or relies on a
    library call that raises as part of its contract: [get_python_exe]
    turns a failed read into [AssertionError], [subprocess.check_output]
    raises [CalledProcessError] on a non-zero exit status, the [%] of
    [add_message] raises on a format it cannot fill.  The other
    collaborators ([arcpy], the GIS stages, the write to the log) are
    functions that return, and [subprocess.Popen] starts the child: a
    command line that names no program is not among the hosts.  The two
    [while True] loops read
    from a child process; they run on a budget of iterations, and the
    lemmas [get_weather_names_loop_spec] and [run_cli_loop_spec] show that
    a budget above the length of the child's output is enough. *)

From Stdlib Require Import ZArith String Ascii List Bool Lia.
From stdpp Require Import base option list strings gmap.

Import ListNotations.
Local Open Scope string_scope.
Local Open Scope list_scope.

(* ===================================================================== *)
(** * Part I: [network_layout_main.py] *)
(* ===================================================================== *)

Module NetworkLayout.

Section Orchestrator.

(** Value type of the configuration's real-valued parameter
    [network_layout.pipe_diameter]; it is only handed on. *)
Variable Real : Type.

(** [config.network_layout] and [config.thermal_network], with the
    attributes the function reads. *)
Record NetworkLayoutSection := {
  type_mat : string;
  pipe_diameter : Real;
  network_type : string;
  create_plant : bool;
  buildings : list string;
  allow_looped_networks : bool
}.

Record ThermalNetworkSection := {
  disconnected_buildings : list string
}.

Record Configuration := {
  cfg_network_layout : NetworkLayoutSection;
  cfg_thermal_network : ThermalNetworkSection
}.

(** [cea.inputlocator.InputLocator]: the methods the function calls. *)
Record InputLocator := {
  get_zone_geometry : string;
  get_temporary_file : string -> string;
  get_electric_networks_folder : string;
  get_total_demand : string;
  get_network_layout_edges_shapefile : string -> string -> string;
  get_network_layout_nodes_shapefile : string -> string -> string;
  get_input_network_folder : string -> string -> string
}.

(** [os.path.join] (first component, further components) and
    [os.path.expanduser]. *)
Record OsPath := {
  os_path_join : string -> list string -> string;
  os_path_expanduser : string -> string
}.

(** A call into one of the stage modules under
    [cea.technologies.thermal_network.network_layout], with its
    positional arguments.  [calc_minimum_spanning_tree] is the alternate
    strategy whose call is commented out in the source. *)
Inductive StageCall :=
| calc_substation_location
    (input_buildings_shp output_substations_shp : string)
    (connected_buildings : list string)
| calc_connectivity_network
    (path_arcgis_db streets_shp connection_point_buildings_shp
     path_potential_network : string)
| calc_minimum_spanning_tree
    (input_network_shp output_network_folder building_nodes_shp
     output_edges output_nodes weight_field type_mat_default : string)
    (pipe_diameter_default : Real)
| calc_steiner_spanning_tree
    (input_network_shp output_network_folder building_nodes_shp
     output_edges output_nodes weight_field type_mat_default : string)
    (pipe_diameter_default : Real)
    (type_network total_demand_location : string)
    (create_plant allow_looped_networks optimization_flag : bool)
    (plant_building_names disconnected_building_names : list string).

(** The shapefiles on disk, and what a stage does to them: the stage
    modules are not part of this file. *)
Variable GIS : Type.
Variable perform : StageCall -> GIS -> GIS.

Record Site := {
  disk : GIS;
  calls : list StageCall   (* stage calls made so far, oldest first *)
}.

Definition invoke (c : StageCall) (s : Site) : Site :=
  {| disk := perform c (disk s); calls := calls s ++ [c] |}.

Variable os_path : OsPath.

(** [network_layout(config, locator, plant_building_names,
    input_path_name, output_name_network="", optimization_flag=False)];
    an omitted optional argument is [None]. *)
Definition network_layout
    (config : Configuration) (locator : InputLocator)
    (plant_building_names : list string) (input_path_name : string)
    (output_name_network_arg : option string)
    (optimization_flag_arg : option bool)
    (s : Site) : Site :=
  let output_name_network := default "" output_name_network_arg in
  let optimization_flag := default false optimization_flag_arg in
  (* Local variables *)
  let weight_field := "Shape_Leng" in
  let type_mat_default := type_mat (cfg_network_layout config) in
  let pipe_diameter_default := pipe_diameter (cfg_network_layout config) in
  let type_network := network_type (cfg_network_layout config) in
  let create_plant := create_plant (cfg_network_layout config) in
  let input_buildings_shp := get_zone_geometry locator in
  let connected_buildings := buildings (cfg_network_layout config) in
  let output_substations_shp :=
    get_temporary_file locator "nodes_buildings.shp" in
  let input_paths_shp :=
    os_path_join os_path
      (get_electric_networks_folder locator +:+ "/" +:+ input_path_name
         +:+ ".shp") [] in
  let path_potential_network :=
    get_temporary_file locator "potential_network.shp" in
  let path_default_arcgis_db :=
    os_path_expanduser os_path
      (os_path_join os_path "~" ["Documents"; "ArcGIS"; "Default.gdb"]) in
  let total_demand_location := get_total_demand locator in
  (* Calculate points where the substations will be located *)
  let s := invoke (calc_substation_location input_buildings_shp
                     output_substations_shp connected_buildings) s in
  (* Calculate potential network *)
  let s := invoke (calc_connectivity_network path_default_arcgis_db
                     input_paths_shp output_substations_shp
                     path_potential_network) s in
  (* calc minimum spanning tree and save results to disk *)
  let output_edges :=
    get_network_layout_edges_shapefile locator type_network
      output_name_network in
  let output_nodes :=
    get_network_layout_nodes_shapefile locator type_network
      output_name_network in
  let output_network_folder :=
    get_input_network_folder locator type_network output_name_network in
  let disconnected_building_names :=
    disconnected_buildings (cfg_thermal_network config) in
  invoke (calc_steiner_spanning_tree path_potential_network
            output_network_folder output_substations_shp output_edges
            output_nodes weight_field type_mat_default
            pipe_diameter_default type_network total_demand_location
            create_plant
            (allow_looped_networks (cfg_network_layout config))
            optimization_flag plant_building_names
            disconnected_building_names) s.

(** Which stage function a call goes to. *)
Inductive Stage := Substations | Connectivity | MinimumTree | SteinerTree.

Definition stage_of (c : StageCall) : Stage :=
  match c with
  | calc_substation_location _ _ _ => Substations
  | calc_connectivity_network _ _ _ _ => Connectivity
  | calc_minimum_spanning_tree _ _ _ _ _ _ _ _ => MinimumTree
  | calc_steiner_spanning_tree _ _ _ _ _ _ _ _ _ _ _ _ _ _ _ => SteinerTree
  end.

Definition stage_eqb (a b : Stage) : bool :=
  match a, b with
  | Substations, Substations | Connectivity, Connectivity
  | MinimumTree, MinimumTree | SteinerTree, SteinerTree => true
  | _, _ => false
  end.

(** How many of the calls go to stage [st]. *)
Definition times_invoked (st : Stage) (cs : list StageCall) : nat :=
  length (filter (fun c => stage_eqb (stage_of c) st = true) cs).

(** The file a stage writes and the files a stage reads, as far as the
    hand-over between stages is concerned. *)
Definition output_path (c : StageCall) : option string :=
  match c with
  | calc_substation_location _ out _ => Some out
  | calc_connectivity_network _ _ _ out => Some out
  | _ => None
  end.

Definition input_paths (c : StageCall) : list string :=
  match c with
  | calc_substation_location inp _ _ => [inp]
  | calc_connectivity_network db streets nodes _ => [db; streets; nodes]
  | calc_minimum_spanning_tree net _ nodes _ _ _ _ _ => [net; nodes]
  | calc_steiner_spanning_tree net _ nodes _ _ _ _ _ _ demand _ _ _ _ _ =>
      [net; nodes; demand]
  end.

(** The two files handed from stage to stage. *)
Definition substations_shp (locator : InputLocator) : string :=
  get_temporary_file locator "nodes_buildings.shp".

Definition potential_network_shp (locator : InputLocator) : string :=
  get_temporary_file locator "potential_network.shp".

(** The three calls of [network_layout], with the arguments it computes. *)
Definition first_call (config : Configuration) (locator : InputLocator)
  : StageCall :=
  calc_substation_location (get_zone_geometry locator)
    (substations_shp locator) (buildings (cfg_network_layout config)).

Definition second_call (locator : InputLocator) (input_path_name : string)
  : StageCall :=
  calc_connectivity_network
    (os_path_expanduser os_path
       (os_path_join os_path "~" ["Documents"; "ArcGIS"; "Default.gdb"]))
    (os_path_join os_path
       (get_electric_networks_folder locator +:+ "/" +:+ input_path_name
          +:+ ".shp") [])
    (substations_shp locator) (potential_network_shp locator).

Definition third_call (config : Configuration) (locator : InputLocator)
    (plant_building_names : list string)
    (output_name_network : option string)
    (optimization_flag : option bool) : StageCall :=
  let nl := cfg_network_layout config in
  let name := default "" output_name_network in
  calc_steiner_spanning_tree (potential_network_shp locator)
    (get_input_network_folder locator (network_type nl) name)
    (substations_shp locator)
    (get_network_layout_edges_shapefile locator (network_type nl) name)
    (get_network_layout_nodes_shapefile locator (network_type nl) name)
    "Shape_Leng" (type_mat nl) (pipe_diameter nl) (network_type nl)
    (get_total_demand locator) (create_plant nl)
    (allow_looped_networks nl) (default false optimization_flag)
    plant_building_names
    (disconnected_buildings (cfg_thermal_network config)).

(** ** [main] *)

(** [cea.config.Configuration] as [main] reads it: the [scenario] attribute
    beside the sections [network_layout] reads. *)
Record ScenarioConfiguration := {
  scenario : string;
  sections : Configuration
}.

(** [os.path.exists] and the constructor
    [cea.inputlocator.InputLocator(scenario=...)]. *)
Variable path_exists : string -> bool.
Variable new_locator : string -> InputLocator.

(** How [main] ends: it returns, or its [assert] fails with a message. *)
Inductive Completion :=
| Completed (s : Site)
| AssertionFailed (msg : string).

(** [main(config)] *)
Definition main (config : ScenarioConfiguration) (s : Site) : Completion :=
  if negb (path_exists (scenario config)) then
    AssertionFailed ("Scenario not found: " +:+ scenario config)
  else
    let locator := new_locator (scenario config) in
    (* Placeholder, this is only used in Network optimization *)
    let connected_building_names := [] in
    Completed
      (network_layout (sections config) locator connected_building_names
         "streets" None None s).

End Orchestrator.

Arguments calc_substation_location {Real}.
Arguments calc_connectivity_network {Real}.
Arguments calc_minimum_spanning_tree {Real}.
Arguments calc_steiner_spanning_tree {Real}.
Arguments disk {Real GIS}.
Arguments calls {Real GIS}.
Arguments invoke {Real GIS}.
Arguments network_layout {Real GIS}.
Arguments stage_of {Real}.
Arguments times_invoked {Real}.
Arguments output_path {Real}.
Arguments input_paths {Real}.
Arguments scenario {Real}.
Arguments sections {Real}.
Arguments Completed {Real GIS}.
Arguments AssertionFailed {Real GIS}.
Arguments main {Real GIS}.
Arguments first_call {Real}.
Arguments second_call {Real}.
Arguments third_call {Real}.
Arguments cfg_network_layout {Real}.
Arguments cfg_thermal_network {Real}.
Arguments type_mat {Real}.
Arguments pipe_diameter {Real}.
Arguments network_type {Real}.
Arguments create_plant {Real}.
Arguments buildings {Real}.
Arguments allow_looped_networks {Real}.

(** ** A scenario to run [main] on *)

Definition demo_os_path : OsPath :=
  {| os_path_join := fun first more => fold_left (fun a b => a +:+ "/" +:+ b) more first;
     os_path_expanduser := fun p => p |}.

Definition demo_locator (scenario : string) : InputLocator :=
  {| get_zone_geometry := scenario +:+ "/inputs/zone.shp";
     get_temporary_file := fun file => "C:/Temp/" +:+ file;
     get_electric_networks_folder := scenario +:+ "/inputs/networks";
     get_total_demand := scenario +:+ "/outputs/Total_demand.csv";
     get_network_layout_edges_shapefile := fun typ name =>
       scenario +:+ "/inputs/networks/" +:+ typ +:+ "/" +:+ name
         +:+ "/edges.shp";
     get_network_layout_nodes_shapefile := fun typ name =>
       scenario +:+ "/inputs/networks/" +:+ typ +:+ "/" +:+ name
         +:+ "/nodes.shp";
     get_input_network_folder := fun typ name =>
       scenario +:+ "/inputs/networks/" +:+ typ +:+ "/" +:+ name |}.

Definition demo_config : ScenarioConfiguration Z :=
  {| scenario := "C:/scenario";
     sections :=
       {| cfg_network_layout :=
            {| type_mat := "T1"; pipe_diameter := 150%Z;
               network_type := "DH"; create_plant := true;
               buildings := ["B01"; "B02"];
               allow_looped_networks := false |};
          cfg_thermal_network := {| disconnected_buildings := ["B03"] |} |} |}.

(** A disk that only counts the stages run on it. *)
Definition count_stage (c : StageCall Z) (n : nat) : nat := S n.

Definition empty_site : Site Z nat := {| disk := 0; calls := [] |}.

End NetworkLayout.

(* ===================================================================== *)
(** * Part II: [CityEnergyAnalyst.py] (the ArcGIS toolbox) *)
(* ===================================================================== *)

Module ArcGIS.

(** ** Python strings *)

(** The characters [str.strip] removes when called without argument:
    space, and tab, line feed, vertical tab, form feed, carriage return. *)
Definition is_space (c : ascii) : bool :=
  let n := nat_of_ascii c in
  Nat.eqb n 32 || (Nat.leb 9 n && Nat.leb n 13).

Fixpoint lstrip (s : string) : string :=
  match s with
  | EmptyString => EmptyString
  | String c s' => if is_space c then lstrip s' else s
  end.

Fixpoint rstrip (s : string) : string :=
  match s with
  | EmptyString => EmptyString
  | String c s' =>
      match rstrip s' with
      | EmptyString => if is_space c then EmptyString else String c EmptyString
      | r => String c r
      end
  end.

Definition strip (s : string) : string := rstrip (lstrip s).

(** [s.endswith(suffix)] *)
Definition endswith (s suffix : string) : bool :=
  let n := String.length s in
  let m := String.length suffix in
  Nat.leb m n && String.eqb (substring (n - m) m s) suffix.

Definition newline : ascii := ascii_of_nat 10.

(** [file.readline()] on the bytes still to come: the next line with its
    line feed (the whole rest when no line feed is left, [""] at end of
    input), and what remains after it. *)
Fixpoint readline (buf : string) : string * string :=
  match buf with
  | EmptyString => (EmptyString, EmptyString)
  | String c rest =>
      if Ascii.eqb c newline then (String c EmptyString, rest)
      else let (line, rest') := readline rest in (String c line, rest')
  end.

(** ** Exceptions, the host and the world *)

Inductive Exn :=
| AssertionError (msg : string)
| CalledProcessError (returncode : Z) (cmd : list string)
| IOError (errno : Z) (filename : string)
| ValueError (msg : string)
| KeyError (key : string)
| TypeError (msg : string).

(** A run of a child process that comes to an end: all it wrote to its two
    streams, its exit status, and for how many calls [poll()] still answers
    [None] after standard output has reached its end. *)
Record Child := {
  child_stdout : string;
  child_stderr : string;
  child_returncode : Z;
  child_linger : nat
}.

(** A [subprocess.Popen] object as the parent sees it: the unread part of
    the two pipes and the exit status. *)
Record Popen := {
  out_pipe : string;
  err_pipe : string;
  polls_pending : nat;
  returncode : Z
}.

(** Keyword arguments of [add_message]: name and rendered value. *)
Definition Kwargs := list (string * string).

(** What the module only observes: the machine it runs on. *)
Record Host := {
  expanduser : string -> string;             (* os.path.expanduser *)
  path_join : string -> string -> string;    (* os.path.join, two components *)
  gettempdir : string;                       (* tempfile.gettempdir() *)
  is_dir : string -> bool;                   (* the folders on disk *)
  access_denied : string -> bool;            (* files open() may not read *)
  cli : list string -> Child;                (* what a command line does *)
  str_mod : string -> Kwargs -> Exn + string (* msg % kwargs, or what it raises *)
}.

Inductive OpenMode := AppendMode | TruncateMode.

Inductive Event :=
| Spawned (argv : list string)                      (* a child was started *)
| PathChecked (path : string)                       (* os.path.exists *)
| ErrorMessageSet (index : nat) (msg : string)      (* parameters[i].setErrorMessage *)
| MessageAdded (msg : string)                       (* arcpy.AddMessage *)
| FileWritten (path : string) (mode : OpenMode) (data : string).

(** What the module changes: regular files and their content, the error
    message attached to each tool parameter, and the trace of calls. *)
Record World := {
  files : gmap string string;
  param_errors : gmap nat string;
  events : list Event
}.

Definition record_event (e : Event) (w : World) : World :=
  {| files := files w; param_errors := param_errors w;
     events := events w ++ [e] |}.

(** ** Computations: state, exceptions, and a loop budget *)

Inductive Outcome (A : Type) :=
| Returned (a : A)
| Raised (e : Exn)
| OutOfFuel.
Arguments Returned {A} a.
Arguments Raised {A} e.
Arguments OutOfFuel {A}.

Definition M (A : Type) : Type := World -> Outcome A * World.

Definition ret {A} (a : A) : M A := fun w => (Returned a, w).

Definition raise {A} (e : Exn) : M A := fun w => (Raised e, w).

Definition out_of_fuel {A} : M A := fun w => (OutOfFuel, w).

Definition bind {A B} (c : M A) (k : A -> M B) : M B :=
  fun w =>
    match c w with
    | (Returned a, w') => k a w'
    | (Raised e, w') => (Raised e, w')
    | (OutOfFuel, w') => (OutOfFuel, w')
    end.

Definition emit (e : Event) : M unit :=
  fun w => (Returned tt, record_event e w).

Declare Scope py_scope.
Delimit Scope py_scope with py.
Notation "'let!' x ':=' c 'in' k" := (bind c (fun x => k))
  (at level 10, x name, c at level 100, k at level 200) : py_scope.
Notation "'do!' c 'in' k" := (bind c (fun _ => k))
  (at level 10, c at level 100, k at level 200) : py_scope.
Local Open Scope py_scope.

(** try: c  except: raise e *)
Definition try_except_raise {A} (c : M A) (e : Exn) : M A :=
  fun w =>
    match c w with
    | (Raised _, w') => (Raised e, w')
    | r => r
    end.

Section Toolbox.

Variable host : Host.

(** ** The primitives of [os], [subprocess] and [arcpy] *)

Definition on_disk (w : World) (path : string) : bool :=
  match files w !! path with
  | Some _ => true
  | None => is_dir host path
  end.

(** [os.path.exists(path)] *)
Definition os_path_exists (path : string) : M bool :=
  fun w => (Returned (on_disk w path), record_event (PathChecked path) w).

(** [with open(path, 'r') as f: f.read()] *)
Definition read_text (path : string) : M string :=
  fun w =>
    match files w !! path with
    | Some content =>
        if access_denied host path then (Raised (IOError 13 path), w)
        else (Returned content, w)
    | None => (Raised (IOError 2 path), w)
    end.

(** [with open(path, mode) as f: f.write(data)], for the writing modes:
    ['a'] keeps what the file holds and writes at its end, ['w'] empties
    it first; both create a missing file. *)
Definition write_text (path : string) (mode : OpenMode) (data : string)
  : M unit :=
  fun w =>
    let old := match mode with
               | AppendMode => default "" (files w !! path)
               | TruncateMode => ""
               end in
    (Returned tt,
     {| files := <[path := old +:+ data]> (files w);
        param_errors := param_errors w;
        events := events w ++ [FileWritten path mode data] |}).

(** [subprocess.Popen(argv, ...)]: start the child. *)
Definition popen (argv : list string) : M Popen :=
  fun w =>
    let c := cli host argv in
    (Returned {| out_pipe := child_stdout c; err_pipe := child_stderr c;
                 polls_pending := child_linger c;
                 returncode := child_returncode c |},
     record_event (Spawned argv) w).

(** [p.stdout.readline()] *)
Definition stdout_readline (p : Popen) : string * Popen :=
  let (line, rest) := readline (out_pipe p) in
  (line, {| out_pipe := rest; err_pipe := err_pipe p;
            polls_pending := polls_pending p;
            returncode := returncode p |}).

(** [p.poll()]: [None] while the child runs, its exit status after. *)
Definition poll (p : Popen) : option Z * Popen :=
  match polls_pending p with
  | O => (Some (returncode p), p)
  | S n => (None, {| out_pipe := out_pipe p; err_pipe := err_pipe p;
                     polls_pending := n; returncode := returncode p |})
  end.

(** [p.communicate()]: wait for the child and hand over what is still
    unread in the two pipes. *)
Definition communicate (p : Popen) : (string * string) * Popen :=
  ((out_pipe p, err_pipe p),
   {| out_pipe := ""; err_pipe := ""; polls_pending := 0;
      returncode := returncode p |}).

(** [subprocess.check_output(argv, ...)]: run the child to its end and
    return its standard output; a non-zero exit status raises
    [CalledProcessError]. *)
Definition check_output (argv : list string) : M string :=
  let! process := popen argv in
  let '((output, _), process) := communicate process in
  let retcode := returncode process in
  if negb (Z.eqb retcode 0) then raise (CalledProcessError retcode argv)
  else ret output.

(** [parameters[index].setErrorMessage(msg)] *)
Definition setErrorMessage (index : nat) (msg : string) : M unit :=
  fun w =>
    (Returned tt,
     {| files := files w;
        param_errors := <[index := msg]> (param_errors w);
        events := events w ++ [ErrorMessageSet index msg] |}).

(** ** The module's functions *)

(** [add_message(msg, **kwargs)] *)
Definition add_message (msg : string) (kwargs : Kwargs) : M unit :=
  let! msg := (if Nat.ltb 0 (length kwargs) then
                 match str_mod host msg kwargs with
                 | inr text => ret text
                 | inl e => raise e
                 end
               else ret msg) in
  do! emit (MessageAdded msg) in
  let log_file := path_join host (gettempdir host) "cea.log" in
  write_text log_file AppendMode msg.

(** [get_python_exe()] *)
Definition get_python_exe : M string :=
  try_except_raise
    (let! content := read_text (expanduser host "~/cea_python.pth") in
     let python_exe := strip content in
     ret python_exe)
    (AssertionError "Could not find 'cea_python.pth' in home directory.").

(** [_cli_output(scenario_path, *args)] *)
Definition _cli_output (scenario_path : string) (args : list string)
  : M string :=
  let! python_exe := get_python_exe in
  let! result :=
    check_output
      ([python_exe; "-m"; "cea.cli"; "--scenario"; scenario_path] ++ args)
  in
  ret (strip result).

(** [get_weather(weather_name='default')]; [None] is the omitted
    argument. *)
Definition get_weather (weather_name_arg : option string) : M string :=
  let weather_name := default "default" weather_name_arg in
  _cli_output "" ["weather-path"; weather_name].

(** [get_radiation(scenario_path)] *)
Definition get_radiation (scenario_path : string) : M string :=
  _cli_output scenario_path ["locate"; "get_radiation"].

(** [get_surface_properties(scenario_path)] *)
Definition get_surface_properties (scenario_path : string) : M string :=
  _cli_output scenario_path ["locate"; "get_surface_properties"].

(** The loop of [get_weather_names_inner]: the lines it yields. *)
Fixpoint get_weather_names_loop (fuel : nat) (p : Popen)
  : option (list string) :=
  match fuel with
  | O => None
  | S fuel' =>
      let (line, p) := stdout_readline p in
      if String.eqb line "" then Some []      (* end of input *)
      else option_map (cons (rstrip line)) (get_weather_names_loop fuel' p)
  end.

(** [get_weather_names()] *)
Definition get_weather_names (fuel : nat) : M (list string) :=
  let! python_exe := get_python_exe in
  let command := [python_exe; "-u"; "-m"; "cea.cli"; "weather-files"] in
  let! p := popen command in
  match get_weather_names_loop fuel p with
  | Some names => ret names
  | None => out_of_fuel
  end.

(** The [while True] loop of [run_cli]. *)
Fixpoint run_cli_loop (fuel : nat) (process : Popen) : M Popen :=
  match fuel with
  | O => out_of_fuel
  | S fuel' =>
      let (next_line, process) := stdout_readline process in
      if String.eqb next_line "" then
        let (status, process) := poll process in
        match status with
        | Some _ => ret process                                  (* break *)
        | None =>
            do! add_message (rstrip next_line) [] in
            run_cli_loop fuel' process
        end
      else
        do! add_message (rstrip next_line) [] in
        run_cli_loop fuel' process
  end.

(** [run_cli(scenario_path, *args)] *)
Definition run_cli (fuel : nat) (scenario_path : string)
    (args : list string) : M unit :=
  let! python_exe := get_python_exe in
  let! process :=
    popen ([python_exe; "-u"; "-m"; "cea.cli"; "--scenario"; scenario_path]
             ++ args) in
  let! process := run_cli_loop fuel process in
  let '((stdout, stderr), _) := communicate process in
  do! add_message stdout [] in
  add_message stderr [].

(** ** [DemandTool] *)

(** [DemandTool.updateMessages(parameters)]; the argument is
    [parameters[0].valueAsText], and [parameters[0]] is the parameter
    the messages are set on. *)
Definition updateMessages (scenario_path : option string) : M unit :=
  match scenario_path with
  | None => ret tt
  | Some scenario_path =>
      let! found := os_path_exists scenario_path in
      if negb found then
        setErrorMessage 0 ("Scenario folder not found: " +:+ scenario_path)
      else
        let! radiation := get_radiation scenario_path in
        let! found := os_path_exists radiation in
        do! (if negb found then
               setErrorMessage 0
                 "No radiation data found for scenario. Run radiation script first."
             else ret tt) in
        let! surface_properties := get_surface_properties scenario_path in
        let! found := os_path_exists surface_properties in
        do! (if negb found then
               setErrorMessage 0
                 "No radiation data found for scenario. Run radiation script first."
             else ret tt) in
        ret tt
  end.

(** [x in names] for a list of strings. *)
Definition contains (names : list string) (x : string) : bool :=
  existsb (String.eqb x) names.

(** The [if]/[elif]/[else] of [DemandTool.execute] that computes
    [weather_path]. *)
Definition execute_weather_path (fuel : nat) (weather_name : string)
  : M string :=
  let! names := get_weather_names fuel in
  if contains names weather_name then
    get_weather (Some weather_name)
  else
    let! found := os_path_exists weather_name in
    if found && endswith weather_name ".epw" then ret weather_name
    else get_weather None.

(** [DemandTool.execute(parameters, _)]; both parameters are declared
    [parameterType="Required"], so the host hands over two texts. *)
Definition execute (fuel : nat) (scenario_path weather_name : string)
  : M unit :=
  let! weather_path := execute_weather_path fuel weather_name in
  run_cli fuel scenario_path ["demand"; "--weather"; weather_path].

(** ** Vocabulary for the statements *)

(** The interpreter-path file as [get_python_exe] can read it: its content,
    or [None] when the file is absent or may not be read. *)
Definition python_pth (w : World) : option string :=
  let path := expanduser host "~/cea_python.pth" in
  match files w !! path with
  | Some content => if access_denied host path then None else Some content
  | None => None
  end.

(** The error of [get_python_exe]. *)
Definition pth_not_found : Exn :=
  AssertionError "Could not find 'cea_python.pth' in home directory.".

(** The log file of [add_message]. *)
Definition log_file : string := path_join host (gettempdir host) "cea.log".

(** The command lines the module builds. *)
Definition cli_output_argv (python_exe scenario_path : string)
    (args : list string) : list string :=
  [python_exe; "-m"; "cea.cli"; "--scenario"; scenario_path] ++ args.

Definition run_cli_argv (python_exe scenario_path : string)
    (args : list string) : list string :=
  [python_exe; "-u"; "-m"; "cea.cli"; "--scenario"; scenario_path] ++ args.

Definition weather_files_argv (python_exe : string) : list string :=
  [python_exe; "-u"; "-m"; "cea.cli"; "weather-files"].

(** What one call of [add_message] without keyword arguments leaves in the
    trace, and a sequence of such calls. *)
Definition logged (msgs : list string) : list Event :=
  flat_map (fun m => [MessageAdded m; FileWritten log_file AppendMode m]) msgs.

(** The world after one of the two file checks of [updateMessages]:
    [if not os.path.exists(path): parameters[0].setErrorMessage(...)]. *)
Definition after_file_check (path : string) (w : World) : World :=
  let w1 := record_event (PathChecked path) w in
  if on_disk w path then w1
  else snd (setErrorMessage 0
              "No radiation data found for scenario. Run radiation script first."
              w1).

(** The world after [add_message(m)] for each [m] of [msgs] in turn. *)
Definition after_messages (msgs : list string) (w : World) : World :=
  fold_left (fun w m => snd (add_message m [] w)) msgs w.

(** ** [DemandTool]: the rest of the tool interface *)

(** An [arcpy.Parameter] as the tool declares it, with the list of its
    value filter. *)
Record ArcParameter := {
  displayName : string;
  name : string;
  datatype : string;
  parameterType : string;
  direction : string;
  filter_list : list string
}.

(** [DemandTool.getParameterInfo()] *)
Definition getParameterInfo (fuel : nat) : M (list ArcParameter) :=
  let scenario_path :=
    {| displayName := "Path to the scenario";
       name := "scenario_path";
       datatype := "DEFolder";
       parameterType := "Required";
       direction := "Input";
       filter_list := [] |} in
  let weather_name :=
    {| displayName :=
         "Weather file (choose from list or enter full path to .epw file)";
       name := "weather_name";
       datatype := "String";
       parameterType := "Required";
       direction := "Input";
       filter_list := [] |} in
  let! names := get_weather_names fuel in
  let weather_name :=
    {| displayName := displayName weather_name;
       name := name weather_name;
       datatype := datatype weather_name;
       parameterType := parameterType weather_name;
       direction := direction weather_name;
       filter_list := names |} in
  ret [scenario_path; weather_name].

(** [DemandTool.isLicensed()] and [DemandTool.updateParameters(parameters)] *)
Definition isLicensed : bool := true.

Definition updateParameters : M unit := ret tt.

(** The text the log file holds ([""] while there is no log file). *)
Definition log_text (w : World) : string :=
  default "" (files w !! log_file).

End Toolbox.

(** Texts written one after the other. *)
Definition text_of (msgs : list string) : string :=
  fold_right String.append "" msgs.

(** A text of white space only, as [str.strip] sees it. *)
Fixpoint blank (s : string) : bool :=
  match s with
  | EmptyString => true
  | String c s' => is_space c && blank s'
  end.

(** The lines of a text, each with its line feed (the last one without,
    when the text does not end in one). *)
Fixpoint split_lines (buf : string) : list string :=
  match buf with
  | EmptyString => []
  | String c rest =>
      if Ascii.eqb c newline then String c EmptyString :: split_lines rest
      else match split_lines rest with
           | [] => [String c EmptyString]
           | line :: more => String c line :: more
           end
  end.

(** The texts handed to [arcpy.AddMessage], the files written and the
    children started, in order. *)
Definition messages_added (es : list Event) : list string :=
  flat_map (fun e => match e with MessageAdded m => [m] | _ => [] end) es.

Definition file_writes (es : list Event)
  : list (string * OpenMode * string) :=
  flat_map (fun e => match e with
                     | FileWritten p m d => [(p, m, d)]
                     | _ => []
                     end) es.

Definition spawned (es : list Event) : list (list string) :=
  flat_map (fun e => match e with Spawned argv => [argv] | _ => [] end) es.

Definition paths_checked (es : list Event) : list string :=
  flat_map (fun e => match e with PathChecked p => [p] | _ => [] end) es.

Definition error_messages_set (es : list Event) : list (nat * string) :=
  flat_map (fun e => match e with
                     | ErrorMessageSet i m => [(i, m)]
                     | _ => []
                     end) es.

(** The two texts of [updateMessages]. *)
Definition scenario_not_found (scenario_path : string) : string :=
  "Scenario folder not found: " +:+ scenario_path.

Definition no_radiation : string :=
  "No radiation data found for scenario. Run radiation script first.".

(** ** A machine to run the module on

    A host with two scenario folders and a command line that knows two
    weather files.  [locate] answers with a path that is not on disk, and
    exits with status 1 for the scenario [C:/broken]; [demand] prints two
    lines and a warning; any other command prints one line, closes its
    output and takes two more polls to exit. *)

Definition lf : string := String newline EmptyString.

Definition python : string := "C:/Python27/python.exe".

Definition listing_argv : list string :=
  [python; "-u"; "-m"; "cea.cli"; "weather-files"].

Definition mentions (argv : list string) (word : string) : bool :=
  existsb (String.eqb word) argv.

Definition demo_cli (argv : list string) : Child :=
  if mentions argv "weather-files" then
    {| child_stdout := "Zurich" +:+ lf +:+ "city.epw" +:+ lf;
       child_stderr := ""; child_returncode := 0; child_linger := 0 |}
  else if mentions argv "weather-path" then
    {| child_stdout := "C:/cea/weather/" +:+ nth 6 argv "" +:+ ".epw" +:+ lf;
       child_stderr := ""; child_returncode := 0; child_linger := 0 |}
  else if mentions argv "locate" then
    if mentions argv "C:/broken" then
      {| child_stdout := ""; child_stderr := "Traceback";
         child_returncode := 1; child_linger := 0 |}
    else
      {| child_stdout := nth 4 argv "" +:+ "/outputs/" +:+ nth 6 argv ""
                           +:+ ".csv" +:+ lf;
         child_stderr := ""; child_returncode := 0; child_linger := 0 |}
  else if mentions argv "demand" then
    {| child_stdout := "reading input" +:+ lf +:+ "done" +:+ lf;
       child_stderr := "warning";
       child_returncode := 0; child_linger := 0 |}
  else
    {| child_stdout := "working" +:+ lf; child_stderr := "";
       child_returncode := 0; child_linger := 2 |}.

(** The part of [msg % kwargs] the demonstrations use: [%%] is a percent
    sign, [%(key)s] is the value under [key] ([KeyError] without one), and
    a format that breaks off after [%] or inside [%(key)] is a
    [ValueError].  The other conversions of [%] are not part of it; the
    demonstrations use none of them. *)
Inductive FormatState :=
| InText
| AfterPercent
| InKey (key : string)
| AfterKey (key : string).

Fixpoint kwargs_get (kwargs : Kwargs) (key : string) : option string :=
  match kwargs with
  | [] => None
  | (k, v) :: more => if String.eqb k key then Some v else kwargs_get more key
  end.

Definition prepend (text : string) (rest : Exn + string) : Exn + string :=
  match rest with
  | inr tail => inr (text +:+ tail)
  | inl e => inl e
  end.

Fixpoint format_named (state : FormatState) (kwargs : Kwargs)
    (msg : string) : Exn + string :=
  match msg with
  | EmptyString =>
      match state with
      | InText => inr EmptyString
      | AfterPercent => inl (ValueError "incomplete format")
      | InKey _ => inl (ValueError "incomplete format key")
      | AfterKey _ => inl (ValueError "incomplete format")
      end
  | String c rest =>
      match state with
      | InText =>
          if Ascii.eqb c "%"%char then format_named AfterPercent kwargs rest
          else prepend (String c EmptyString) (format_named InText kwargs rest)
      | AfterPercent =>
          if Ascii.eqb c "%"%char then
            prepend "%" (format_named InText kwargs rest)
          else if Ascii.eqb c "("%char then
            format_named (InKey EmptyString) kwargs rest
          else inl (ValueError "unsupported format character")
      | InKey key =>
          if Ascii.eqb c ")"%char then format_named (AfterKey key) kwargs rest
          else format_named (InKey (key +:+ String c EmptyString)) kwargs rest
      | AfterKey key =>
          if Ascii.eqb c "s"%char then
            match kwargs_get kwargs key with
            | Some value => prepend value (format_named InText kwargs rest)
            | None => inl (KeyError key)
            end
          else inl (ValueError "unsupported format character")
      end
  end.

Definition demo_host : Host :=
  {| expanduser := fun p =>
       match p with
       | String c rest => if Ascii.eqb c "~"%char then "C:/Users/cea" +:+ rest
                          else p
       | EmptyString => p
       end;
     path_join := fun a b => a +:+ "/" +:+ b;
     gettempdir := "C:/Temp";
     is_dir := fun p => String.eqb p "C:/scenario" || String.eqb p "C:/broken";
     access_denied := fun _ => false;
     cli := demo_cli;
     str_mod := fun msg kwargs => format_named InText kwargs msg |}.

(** The disk with the interpreter file and two weather files, one of them
    under a name that is also registered, and the disk without the
    interpreter file. *)
Definition demo_world : World :=
  {| files := <["C:/Users/cea/cea_python.pth" := python +:+ lf]>
                (<["city.epw" := "LOCATION"]>
                   (<["C:/data/site.epw" := "LOCATION"]> ∅));
     param_errors := ∅;
     events := [] |}.

Definition bare_world : World :=
  {| files := ∅; param_errors := ∅; events := [] |}.


(** A host like [demo_host] on which the weather lookup fails: the
    [weather-path] command exits with status 1. *)
Definition offline_host : Host :=
  {| expanduser := expanduser demo_host;
     path_join := path_join demo_host;
     gettempdir := gettempdir demo_host;
     is_dir := is_dir demo_host;
     access_denied := access_denied demo_host;
     cli := fun argv =>
       if mentions argv "weather-path" then
         {| child_stdout := ""; child_stderr := "no such weather file";
            child_returncode := 1; child_linger := 0 |}
       else demo_cli argv;
     str_mod := str_mod demo_host |}.

(** What validation leaves alone: the files, the messages shown and
    logged, and the messages of every parameter but the first. *)
Definition untouched_by_validation (w w' : World) : Prop :=
  files w' = files w
  /\ messages_added (events w') = messages_added (events w)
  /\ file_writes (events w') = file_writes (events w)
  /\ forall index, index <> 0 ->
       param_errors w' !! index = param_errors w !! index.

(** A host like [demo_host] whose listing of weather files ends in a blank
    line. *)
Definition padded_host : Host :=
  {| expanduser := expanduser demo_host;
     path_join := path_join demo_host;
     gettempdir := gettempdir demo_host;
     is_dir := is_dir demo_host;
     access_denied := access_denied demo_host;
     cli := fun argv =>
       if mentions argv "weather-files" then
         {| child_stdout := "Zurich" +:+ lf +:+ " " +:+ lf;
            child_stderr := ""; child_returncode := 0; child_linger := 0 |}
       else demo_cli argv;
     str_mod := str_mod demo_host |}.

(** A host like [demo_host] whose listing of weather files prints
    nothing. *)
Definition silent_host : Host :=
  {| expanduser := expanduser demo_host;
     path_join := path_join demo_host;
     gettempdir := gettempdir demo_host;
     is_dir := is_dir demo_host;
     access_denied := access_denied demo_host;
     cli := fun argv =>
       if mentions argv "weather-files" then
         {| child_stdout := ""; child_stderr := "";
            child_returncode := 0; child_linger := 0 |}
       else demo_cli argv;
     str_mod := str_mod demo_host |}.

(** A host like [demo_host] on which the query for the surface-properties
    file fails: it exits with status 2. *)
Definition surface_broken_host : Host :=
  {| expanduser := expanduser demo_host;
     path_join := path_join demo_host;
     gettempdir := gettempdir demo_host;
     is_dir := is_dir demo_host;
     access_denied := access_denied demo_host;
     cli := fun argv =>
       if mentions argv "get_surface_properties" then
         {| child_stdout := ""; child_stderr := "Traceback";
            child_returncode := 2; child_linger := 0 |}
       else demo_cli argv;
     str_mod := str_mod demo_host |}.

(** A host like [h] on which every child exits with [status], and one on
    which every child writes [text] to its standard error. *)
Definition with_exit_status (status : Z) (h : Host) : Host :=
  {| expanduser := expanduser h;
     path_join := path_join h;
     gettempdir := gettempdir h;
     is_dir := is_dir h;
     access_denied := access_denied h;
     cli := fun argv =>
       {| child_stdout := child_stdout (cli h argv);
          child_stderr := child_stderr (cli h argv);
          child_returncode := status;
          child_linger := child_linger (cli h argv) |};
     str_mod := str_mod h |}.

Definition with_stderr (text : string) (h : Host) : Host :=
  {| expanduser := expanduser h;
     path_join := path_join h;
     gettempdir := gettempdir h;
     is_dir := is_dir h;
     access_denied := access_denied h;
     cli := fun argv =>
       {| child_stdout := child_stdout (cli h argv);
          child_stderr := text;
          child_returncode := child_returncode (cli h argv);
          child_linger := child_linger (cli h argv) |};
     str_mod := str_mod h |}.

End ArcGIS.

(* ===================================================================== *)
(** * Part III: properties of [network_layout] *)
(* ===================================================================== *)

Module NetworkLayoutFacts.

Import NetworkLayout.

Section Facts.

Context {Real GIS : Type}.
Variable perform : StageCall Real -> GIS -> GIS.
Variable os_path : OsPath.

Variable config : Configuration Real.
Variable locator : InputLocator.
Variable plant_building_names : list string.
Variable input_path_name : string.
Variable output_name_network : option string.
Variable optimization_flag : option bool.

Abbreviation run s :=
  (network_layout perform os_path config locator plant_building_names
     input_path_name output_name_network optimization_flag s).
Abbreviation c1 := (first_call config locator : StageCall Real).
Abbreviation c2 :=
  (second_call os_path locator input_path_name : StageCall Real).
Abbreviation c3 :=
  (third_call config locator plant_building_names output_name_network
     optimization_flag).

(** What a run adds to the trace and does to the disk. *)
Lemma network_layout_calls (s : Site Real GIS) :
  calls (run s) = calls s ++ [c1; c2; c3].
Proof.
  unfold network_layout, invoke; cbn [calls].
  rewrite <- !app_assoc. reflexivity.
Qed.

Lemma network_layout_disk (s : Site Real GIS) :
  disk (run s) = perform c3 (perform c2 (perform c1 (disk s))).
Proof. reflexivity. Qed.

Lemma times_invoked_three (st : Stage) :
  times_invoked st [c1; c2; c3] = match st with MinimumTree => 0 | _ => 1 end.
Proof. destruct st; reflexivity. Qed.

(** C1: a call of [network_layout] adds to the trace exactly three stage
    calls: [calc_substation_location], then [calc_connectivity_network],
    then [calc_steiner_spanning_tree], each stage once; the substations
    file that is the output of the first is the building-nodes input of the
    second, and the potential-network file that is the output of the second
    is the network input of the third. *)
Theorem network_layout_stage_order (s : Site Real GIS) :
  calls (run s) = calls s ++ [c1; c2; c3]
  /\ disk (run s) = perform c3 (perform c2 (perform c1 (disk s)))
  /\ times_invoked Substations [c1; c2; c3] = 1
  /\ times_invoked Connectivity [c1; c2; c3] = 1
  /\ times_invoked SteinerTree [c1; c2; c3] = 1
  /\ (exists zone connected,
        c1 = calc_substation_location zone (substations_shp locator)
               connected)
  /\ (exists db streets,
        c2 = calc_connectivity_network db streets (substations_shp locator)
               (potential_network_shp locator))
  /\ (exists folder nodes edges out_nodes weight mat diam typ demand plant
             looped flag plants disconnected,
        c3 = calc_steiner_spanning_tree (potential_network_shp locator)
               folder nodes edges out_nodes weight mat diam typ demand
               plant looped flag plants disconnected)
  /\ output_path c1 = Some (substations_shp locator)
  /\ output_path c2 = Some (potential_network_shp locator).
Proof.
  split; [apply network_layout_calls|].
  split; [apply network_layout_disk|].
  rewrite !times_invoked_three.
  repeat split; unfold first_call, second_call, third_call; repeat eexists.
Qed.

(** C8: whatever the configuration and the optimization flag, the tree is
    computed by [calc_steiner_spanning_tree], which receives the flag; no
    call goes to [calc_minimum_spanning_tree]. *)
Theorem network_layout_steiner_only (s : Site Real GIS) :
  exists before tree,
    calls (run s) = calls s ++ before ++ [tree]
    /\ stage_of tree = SteinerTree
    /\ (exists net folder nodes edges out_nodes weight mat diam typ demand
               plant looped plants disconnected,
          tree = calc_steiner_spanning_tree net folder nodes edges
                   out_nodes weight mat diam typ demand plant looped
                   (default false optimization_flag) plants disconnected)
    /\ times_invoked MinimumTree (before ++ [tree]) = 0
    /\ Forall (fun c => stage_of c <> MinimumTree) (before ++ [tree]).
Proof.
  exists [c1; c2], c3.
  rewrite network_layout_calls. repeat split.
  - unfold third_call. repeat eexists.
  - repeat constructor; discriminate.
Qed.

End Facts.

End NetworkLayoutFacts.

(* ===================================================================== *)
(** * Part IV: properties of the toolbox *)
(* ===================================================================== *)

Module ArcGISFacts.

Import ArcGIS.
Local Open Scope py_scope.

#[local] Arguments add_message : simpl never.
#[local] Arguments after_messages : simpl never.

(** ** Strings and lines *)

Lemma readline_empty_iff (buf : string) :
  fst (readline buf) = "" <-> buf = "".
Proof.
  destruct buf as [|c rest]; cbn; [tauto|].
  destruct (Ascii.eqb c newline); [|destruct (readline rest)];
    cbn; split; discriminate.
Qed.

Lemma readline_shorter (buf : string) :
  buf <> "" -> String.length (snd (readline buf)) < String.length buf.
Proof.
  induction buf as [|c rest IH]; [congruence|]; intros _; cbn.
  destruct (Ascii.eqb c newline); cbn; [lia|].
  destruct rest as [|c' rest'].
  - cbn; lia.
  - specialize (IH ltac:(discriminate)).
    destruct (readline (String c' rest')) as [line r]; cbn in *; lia.
Qed.

Lemma split_lines_readline (buf : string) :
  buf <> "" ->
  split_lines buf = fst (readline buf) :: split_lines (snd (readline buf)).
Proof.
  induction buf as [|c rest IH]; [congruence|]; intros _; cbn.
  destruct (Ascii.eqb c newline); cbn; [reflexivity|].
  destruct rest as [|c' rest'].
  - reflexivity.
  - rewrite (IH ltac:(discriminate)).
    destruct (readline (String c' rest')) as [line r]; reflexivity.
Qed.

Lemma contains_In (names : list string) (x : string) :
  contains names x = true <-> In x names.
Proof.
  unfold contains. rewrite existsb_exists. split.
  - intros (y & Hy & Heq). apply String.eqb_eq in Heq. now subst.
  - intros H. exists x. split; [assumption|apply String.eqb_refl].
Qed.

Section Facts.

Variable host : Host.

(** ** The computations, one by one *)

Lemma get_python_exe_spec (w : World) :
  get_python_exe host w
  = (match python_pth host w with
     | Some content => Returned (strip content)
     | None => Raised pth_not_found
     end, w).
Proof.
  unfold get_python_exe, try_except_raise, bind, read_text, python_pth, ret.
  destruct (files w !! expanduser host "~/cea_python.pth"); [|reflexivity].
  destruct (access_denied host _); reflexivity.
Qed.

Lemma python_pth_None (w : World) :
  let path := expanduser host "~/cea_python.pth" in
  python_pth host w = None
  <-> files w !! path = None \/ access_denied host path = true.
Proof.
  unfold python_pth; cbv zeta.
  destruct (files w !! expanduser host "~/cea_python.pth");
    [destruct (access_denied host _)|]; intuition congruence.
Qed.

Lemma check_output_spec (argv : list string) (w : World) :
  let child := cli host argv in
  check_output host argv w
  = (if Z.eqb (child_returncode child) 0
     then Returned (child_stdout child)
     else Raised (CalledProcessError (child_returncode child) argv),
     record_event (Spawned argv) w).
Proof.
  unfold check_output, bind, popen, communicate; cbn.
  destruct (Z.eqb (child_returncode (cli host argv)) 0); reflexivity.
Qed.

Lemma cli_output_spec (scenario_path : string) (args : list string)
    (w : World) :
  _cli_output host scenario_path args w
  = match python_pth host w with
    | None => (Raised pth_not_found, w)
    | Some content =>
        let argv := cli_output_argv (strip content) scenario_path args in
        let child := cli host argv in
        (if Z.eqb (child_returncode child) 0
         then Returned (strip (child_stdout child))
         else Raised (CalledProcessError (child_returncode child) argv),
         record_event (Spawned argv) w)
    end.
Proof.
  unfold _cli_output, bind. rewrite get_python_exe_spec.
  destruct (python_pth host w) as [content|]; [|reflexivity].
  rewrite check_output_spec. cbv zeta. unfold cli_output_argv.
  destruct (Z.eqb _ 0); reflexivity.
Qed.

Lemma add_message_spec (msg : string) (w : World) :
  add_message host msg [] w
  = (Returned tt,
     {| files := <[log_file host :=
                     default "" (files w !! log_file host) +:+ msg]>
                   (files w);
        param_errors := param_errors w;
        events := events w
                  ++ [MessageAdded msg;
                      FileWritten (log_file host) AppendMode msg] |}).
Proof.
  unfold add_message, bind, emit, write_text, record_event, log_file; cbn.
  rewrite <- app_assoc. reflexivity.
Qed.

Lemma add_message_formatted (msg : string) (kwargs : Kwargs) (w : World) :
  add_message host msg kwargs w
  = match (if Nat.ltb 0 (length kwargs) then str_mod host msg kwargs
           else inr msg) with
    | inr text => add_message host text [] w
    | inl e => (Raised e, w)
    end.
Proof.
  unfold add_message, bind.
  destruct (Nat.ltb 0 (length kwargs)); [|reflexivity].
  destruct (str_mod host msg kwargs); reflexivity.
Qed.

Lemma after_messages_nil (w : World) : after_messages host [] w = w.
Proof. reflexivity. Qed.

Lemma after_messages_cons (m : string) (ms : list string) (w : World) :
  after_messages host (m :: ms) w
  = after_messages host ms (snd (add_message host m [] w)).
Proof. reflexivity. Qed.

Lemma after_messages_app (xs ys : list string) (w : World) :
  after_messages host (xs ++ ys) w
  = after_messages host ys (after_messages host xs w).
Proof. unfold after_messages. apply fold_left_app. Qed.

Lemma after_messages_events (msgs : list string) (w : World) :
  events (after_messages host msgs w) = events w ++ logged host msgs.
Proof.
  revert w; induction msgs as [|m msgs IH]; intros w.
  - rewrite after_messages_nil. cbn. now rewrite app_nil_r.
  - rewrite after_messages_cons, IH, add_message_spec; cbn.
    now rewrite <- app_assoc.
Qed.

Lemma after_messages_param_errors (msgs : list string) (w : World) :
  param_errors (after_messages host msgs w) = param_errors w.
Proof.
  revert w; induction msgs as [|m msgs IH]; intros w; [reflexivity|].
  now rewrite after_messages_cons, IH, add_message_spec.
Qed.

(** ** The two loops: enough fuel gives the result *)

Lemma get_weather_names_loop_spec (fuel : nat) (p : Popen) :
  String.length (out_pipe p) < fuel ->
  get_weather_names_loop fuel p
  = Some (map rstrip (split_lines (out_pipe p))).
Proof.
  revert p; induction fuel as [|fuel IH]; intros p Hlt; [lia|].
  destruct p as [out err polls rc]; cbn in *.
  destruct out as [|c rest] eqn:Hout.
  - reflexivity.
  - rewrite <- Hout in *.
    assert (Hne : out <> "") by (subst; discriminate).
    pose proof (readline_shorter out Hne) as Hshort.
    pose proof (split_lines_readline out Hne) as Hsplit.
    pose proof (readline_empty_iff out) as Hempty.
    unfold stdout_readline; cbn.
    destruct (readline out) as [line rest'] eqn:Hrl; cbn in *.
    destruct (String.eqb_spec line ""); [tauto|].
    rewrite IH by (cbn; lia). cbn. now rewrite Hsplit.
Qed.

Lemma run_cli_loop_spec (fuel : nat) (p : Popen) (w : World) :
  String.length (out_pipe p) + polls_pending p < fuel ->
  run_cli_loop host fuel p w
  = (Returned {| out_pipe := ""; err_pipe := err_pipe p;
                 polls_pending := 0; returncode := returncode p |},
     after_messages host
       (map rstrip (split_lines (out_pipe p))
          ++ repeat "" (polls_pending p)) w).
Proof.
  revert p w; induction fuel as [|fuel IH]; intros p w Hlt; [lia|].
  destruct p as [out err polls rc]; cbn in *.
  destruct out as [|c rest] eqn:Hout.
  - unfold stdout_readline, poll; cbn.
    destruct polls as [|polls]; cbn; [reflexivity|].
    unfold bind. rewrite add_message_spec.
    rewrite IH by (cbn; lia). cbn.
    now rewrite after_messages_cons, add_message_spec.
  - rewrite <- Hout in *.
    assert (Hne : out <> "") by (subst; discriminate).
    pose proof (readline_shorter out Hne) as Hshort.
    pose proof (split_lines_readline out Hne) as Hsplit.
    pose proof (readline_empty_iff out) as Hempty.
    unfold stdout_readline; cbn.
    destruct (readline out) as [line rest'] eqn:Hrl; cbn in *.
    destruct (String.eqb_spec line ""); [tauto|].
    unfold bind. rewrite add_message_spec.
    rewrite IH by (cbn; lia). cbn.
    rewrite Hsplit; cbn. now rewrite after_messages_cons, add_message_spec.
Qed.

Lemma get_weather_names_spec (fuel : nat) (w : World) :
  get_weather_names host fuel w
  = match python_pth host w with
    | None => (Raised pth_not_found, w)
    | Some content =>
        let argv := weather_files_argv (strip content) in
        let child := cli host argv in
        (match get_weather_names_loop fuel
                 {| out_pipe := child_stdout child;
                    err_pipe := child_stderr child;
                    polls_pending := child_linger child;
                    returncode := child_returncode child |} with
         | Some names => Returned names
         | None => OutOfFuel
         end, record_event (Spawned argv) w)
    end.
Proof.
  unfold get_weather_names, bind. rewrite get_python_exe_spec.
  destruct (python_pth host w) as [content|]; [|reflexivity].
  unfold popen, weather_files_argv; cbv zeta.
  destruct (get_weather_names_loop _ _); reflexivity.
Qed.

(** With the interpreter file in place and a budget above the length of
    the child's output, the listing returns: one name for each line. *)
Lemma get_weather_names_returns (fuel : nat) (w : World) (content : string) :
  let argv := weather_files_argv (strip content) in
  python_pth host w = Some content ->
  String.length (child_stdout (cli host argv)) < fuel ->
  get_weather_names host fuel w
  = (Returned (map rstrip (split_lines (child_stdout (cli host argv)))),
     record_event (Spawned argv) w).
Proof.
  intros argv Hpth Hfuel. rewrite get_weather_names_spec, Hpth; cbv zeta.
  now rewrite get_weather_names_loop_spec.
Qed.

Lemma get_weather_names_files (fuel : nat) (w w1 : World)
    (r : Outcome (list string)) :
  get_weather_names host fuel w = (r, w1) -> files w1 = files w.
Proof.
  rewrite get_weather_names_spec.
  destruct (python_pth host w); intros [= _ <-]; reflexivity.
Qed.

Lemma on_disk_files (w w' : World) (path : string) :
  files w' = files w -> on_disk host w' path = on_disk host w path.
Proof. unfold on_disk. now intros ->. Qed.

Lemma python_pth_files (w w' : World) :
  files w' = files w -> python_pth host w' = python_pth host w.
Proof. unfold python_pth. now intros ->. Qed.

Lemma run_cli_spec (fuel : nat) (scenario_path : string)
    (args : list string) (w : World) (content : string) :
  let argv := run_cli_argv (strip content) scenario_path args in
  let child := cli host argv in
  python_pth host w = Some content ->
  String.length (child_stdout child) + child_linger child < fuel ->
  run_cli host fuel scenario_path args w
  = (Returned tt,
     after_messages host
       ((map rstrip (split_lines (child_stdout child))
           ++ repeat "" (child_linger child))
          ++ [""; child_stderr child])
       (record_event (Spawned argv) w)).
Proof.
  intros argv child Hpth Hfuel.
  unfold run_cli, bind. rewrite get_python_exe_spec, Hpth.
  unfold popen. fold (run_cli_argv (strip content) scenario_path args).
  fold argv. fold child.
  rewrite run_cli_loop_spec by (cbn; assumption).
  cbn [communicate out_pipe err_pipe].
  cbn [polls_pending].
  rewrite (after_messages_app (_ ++ _) [_; _]).
  rewrite !after_messages_cons, after_messages_nil.
  rewrite !add_message_spec. reflexivity.
Qed.

Lemma messages_added_app (xs ys : list Event) :
  messages_added (xs ++ ys) = messages_added xs ++ messages_added ys.
Proof. unfold messages_added. apply flat_map_app. Qed.

Lemma messages_added_logged (msgs : list string) :
  messages_added (logged host msgs) = msgs.
Proof.
  induction msgs as [|m msgs IH]; [reflexivity|].
  cbn. f_equal. exact IH.
Qed.

Lemma file_writes_app (xs ys : list Event) :
  file_writes (xs ++ ys) = file_writes xs ++ file_writes ys.
Proof. unfold file_writes. apply flat_map_app. Qed.

Lemma scenario_not_found_other (scenario_path : string) :
  scenario_not_found scenario_path <> no_radiation.
Proof. discriminate. Qed.

(** ** [add_message] *)

(** C9, as the code has it: a call of [add_message] whose text is
    settled (there are no keyword arguments, or [msg % kwargs] gives a
    text) returns after one write, of that text, to [cea.log] in the
    temporary directory, opened in append mode; afterwards the log holds
    what it held before followed by the text, and every other file is as
    it was.  A call whose [msg % kwargs] raises ends with that exception
    before anything is shown or written.  Either way, what the log held
    is still there. *)
Theorem add_message_appends_to_log (msg : string) (kwargs : Kwargs)
    (w : World) :
  let log := path_join host (gettempdir host) "cea.log" in
  let result := add_message host msg kwargs w in
  let w' := snd result in
  match (if Nat.ltb 0 (length kwargs) then str_mod host msg kwargs
         else inr msg) with
  | inr text =>
      fst result = Returned tt
      /\ events w' = events w ++ [MessageAdded text;
                                  FileWritten log AppendMode text]
      /\ file_writes (events w')
         = file_writes (events w) ++ [(log, AppendMode, text)]
      /\ files w' !! log = Some (default "" (files w !! log) +:+ text)
      /\ (forall path, path <> log -> files w' !! path = files w !! path)
      /\ param_errors w' = param_errors w
  | inl e => result = (Raised e, w)
  end
  /\ (forall held, files w !! log = Some held ->
      exists more, files w' !! log = Some (held +:+ more)).
Proof.
  cbv zeta. rewrite add_message_formatted.
  destruct (if Nat.ltb 0 (length kwargs) then str_mod host msg kwargs
            else inr msg) as [e|text].
  - split; [reflexivity|]. intros held Hheld. exists "".
    cbn [snd]. rewrite Hheld. f_equal.
    clear. induction held as [|c held IH]; [reflexivity|].
    change (String c held = String c (held +:+ "")). now rewrite <- IH.
  - rewrite add_message_spec. cbn [fst snd events files param_errors].
    unfold log_file. repeat split.
    + rewrite file_writes_app. reflexivity.
    + apply lookup_insert_eq.
    + intros path Hne. now apply lookup_insert_ne.
    + intros held Hheld. exists text.
      now rewrite lookup_insert_eq, Hheld.
Qed.

(** ** [get_python_exe] and the helpers that start a child *)

(** C3: when [~/cea_python.pth] is absent or may not be read, [_cli_output]
    (and with it [get_weather], [get_radiation], [get_surface_properties]),
    [run_cli] and [get_weather_names] raise the [AssertionError] of
    [get_python_exe] and leave the world as it was: no child has been
    started. *)
Theorem missing_pth_fails_before_spawn (w : World)
    (Hpth : files w !! expanduser host "~/cea_python.pth" = None
            \/ access_denied host (expanduser host "~/cea_python.pth")
               = true) :
  get_python_exe host w = (Raised pth_not_found, w)
  /\ (forall scenario_path args,
        _cli_output host scenario_path args w = (Raised pth_not_found, w))
  /\ (forall fuel scenario_path args,
        run_cli host fuel scenario_path args w = (Raised pth_not_found, w))
  /\ (forall fuel,
        get_weather_names host fuel w = (Raised pth_not_found, w))
  /\ (forall name, get_weather host name w = (Raised pth_not_found, w))
  /\ (forall scenario_path,
        get_radiation host scenario_path w = (Raised pth_not_found, w))
  /\ (forall scenario_path,
        get_surface_properties host scenario_path w
        = (Raised pth_not_found, w)).
Proof.
  apply python_pth_None in Hpth.
  assert (Hexe : get_python_exe host w = (Raised pth_not_found, w))
    by now rewrite get_python_exe_spec, Hpth.
  assert (Hcli : forall scenario_path args,
             _cli_output host scenario_path args w
             = (Raised pth_not_found, w))
    by (intros; now rewrite cli_output_spec, Hpth).
  repeat split; intros; try apply Hcli; try assumption.
  - unfold run_cli, bind. now rewrite Hexe.
  - now rewrite get_weather_names_spec, Hpth.
Qed.

(** C2, as the code has it: a helper query returns the stripped standard
    output of its child when the child exits with status zero; any other
    exit status reaches the caller as [CalledProcessError]. *)
Theorem cli_output_exit_status (w : World) (content : string)
    (scenario_path : string) (args : list string)
    (Hpth : python_pth host w = Some content) :
  let argv := [strip content; "-m"; "cea.cli"; "--scenario"; scenario_path]
                ++ args in
  let child := cli host argv in
  (child_returncode child = 0%Z ->
   _cli_output host scenario_path args w
   = (Returned (strip (child_stdout child)),
      record_event (Spawned argv) w))
  /\ (child_returncode child <> 0%Z ->
      _cli_output host scenario_path args w
      = (Raised (CalledProcessError (child_returncode child) argv),
         record_event (Spawned argv) w))
  /\ (forall name,
        get_weather host name
        = _cli_output host "" ["weather-path"; default "default" name])
  /\ get_radiation host scenario_path
     = _cli_output host scenario_path ["locate"; "get_radiation"]
  /\ get_surface_properties host scenario_path
     = _cli_output host scenario_path ["locate"; "get_surface_properties"].
Proof.
  cbv zeta. rewrite cli_output_spec, Hpth; cbv zeta.
  unfold cli_output_argv.
  repeat split.
  - intros ->. reflexivity.
  - intros Hrc. apply Z.eqb_neq in Hrc. now rewrite Hrc.
Qed.

(** ** [DemandTool.updateMessages] *)

(** C10: with the scenario path unset, [updateMessages] returns at once:
    the world, and with it the trace of existence checks, children and
    error messages, is as before. *)
Theorem updateMessages_unset (w : World) :
  let result := updateMessages host None w in
  fst result = Returned tt
  /\ snd result = w
  /\ paths_checked (events (snd result)) = paths_checked (events w)
  /\ spawned (events (snd result)) = spawned (events w)
  /\ error_messages_set (events (snd result)) = error_messages_set (events w)
  /\ param_errors (snd result) = param_errors w.
Proof. repeat split. Qed.

Lemma after_file_check_events (path : string) (w : World) :
  events (after_file_check host path w)
  = events w ++ PathChecked path
                  :: (if on_disk host w path then []
                      else [ErrorMessageSet 0 no_radiation]).
Proof.
  unfold after_file_check. destruct (on_disk host w path); cbn.
  - reflexivity.
  - now rewrite <- app_assoc.
Qed.

Lemma after_file_check_files (path : string) (w : World) :
  files (after_file_check host path w) = files w.
Proof. unfold after_file_check. now destruct (on_disk host w path). Qed.

Lemma updateMessages_missing (w : World) (scenario_path : string) :
  on_disk host w scenario_path = false ->
  updateMessages host (Some scenario_path) w
  = (Returned tt,
     {| files := files w;
        param_errors :=
          <[0 := scenario_not_found scenario_path]> (param_errors w);
        events := events w
                  ++ [PathChecked scenario_path;
                      ErrorMessageSet 0
                        (scenario_not_found scenario_path)] |}).
Proof.
  intros Hdisk. unfold updateMessages, bind, os_path_exists.
  rewrite Hdisk. cbn [negb].
  unfold setErrorMessage, record_event; cbn [events files param_errors].
  rewrite <- app_assoc. reflexivity.
Qed.

Lemma updateMessages_present (w : World) (scenario_path : string) :
  on_disk host w scenario_path = true ->
  updateMessages host (Some scenario_path) w
  = let w0 := record_event (PathChecked scenario_path) w in
    match python_pth host w with
    | None => (Raised pth_not_found, w0)
    | Some content =>
        let radiation_argv :=
          cli_output_argv (strip content) scenario_path
            ["locate"; "get_radiation"] in
        let surface_argv :=
          cli_output_argv (strip content) scenario_path
            ["locate"; "get_surface_properties"] in
        let radiation := cli host radiation_argv in
        let surface := cli host surface_argv in
        let w1 := record_event (Spawned radiation_argv) w0 in
        if Z.eqb (child_returncode radiation) 0 then
          let w2 := after_file_check host (strip (child_stdout radiation))
                      w1 in
          let w3 := record_event (Spawned surface_argv) w2 in
          if Z.eqb (child_returncode surface) 0 then
            (Returned tt,
             after_file_check host (strip (child_stdout surface)) w3)
          else
            (Raised (CalledProcessError (child_returncode surface)
                       surface_argv), w3)
        else
          (Raised (CalledProcessError (child_returncode radiation)
                     radiation_argv), w1)
    end.
Proof.
  intros Hdisk. unfold updateMessages, bind, os_path_exists.
  rewrite Hdisk. cbn [negb]. cbv zeta.
  unfold get_radiation, get_surface_properties.
  rewrite cli_output_spec.
  change (python_pth host (record_event (PathChecked scenario_path) w))
    with (python_pth host w).
  destruct (python_pth host w) as [content|] eqn:Hpth; [|reflexivity].
  cbv zeta.
  destruct (Z.eqb (child_returncode (cli host (cli_output_argv _ _
              ["locate"; "get_radiation"]))) 0); [|reflexivity].
  set (radiation := strip (child_stdout _)).
  set (w1 := record_event (Spawned _) _).
  assert (Hstep : forall path w',
             (if negb (on_disk host w' path)
              then setErrorMessage 0
                     "No radiation data found for scenario. Run radiation script first."
              else ret tt) (record_event (PathChecked path) w')
             = (Returned tt, after_file_check host path w')).
  { intros path w'. unfold after_file_check.
    destruct (on_disk host w' path); reflexivity. }
  rewrite Hstep. rewrite cli_output_spec.
  rewrite (python_pth_files w (after_file_check host radiation w1))
    by now rewrite after_file_check_files.
  rewrite Hpth. cbv zeta.
  destruct (Z.eqb (child_returncode (cli host (cli_output_argv _ _
              ["locate"; "get_surface_properties"]))) 0); [|reflexivity].
  rewrite Hstep. reflexivity.
Qed.

(** C6, as the code has it: the scenario-folder message is set exactly
    when the path is not on disk.  When the path is on disk and the two
    [locate] queries return (interpreter file readable, exit status zero),
    the radiation file is checked, then the surface-properties file is
    checked whatever the first check found, and each check that finds its
    file missing sets the error message.  A query that raises ends
    [updateMessages] with its exception, and what comes after it is not
    done: without the interpreter file nothing but the folder is checked;
    a failing radiation query leaves both files unchecked; a failing
    surface-properties query comes after the radiation check and leaves
    the surface-properties file unchecked. *)
Theorem updateMessages_checks (w : World) (scenario_path : string) :
  let result := updateMessages host (Some scenario_path) w in
  exists new,
    events (snd result) = events w ++ new
    /\ (In (0, scenario_not_found scenario_path) (error_messages_set new)
        <-> on_disk host w scenario_path = false)
    /\ (on_disk host w scenario_path = false ->
        fst result = Returned tt
        /\ new = [PathChecked scenario_path;
                  ErrorMessageSet 0 (scenario_not_found scenario_path)])
    /\ (on_disk host w scenario_path = true ->
        forall content, python_pth host w = Some content ->
        let radiation_argv :=
          [strip content; "-m"; "cea.cli"; "--scenario"; scenario_path;
           "locate"; "get_radiation"] in
        let surface_argv :=
          [strip content; "-m"; "cea.cli"; "--scenario"; scenario_path;
           "locate"; "get_surface_properties"] in
        let radiation := strip (child_stdout (cli host radiation_argv)) in
        let surface := strip (child_stdout (cli host surface_argv)) in
        child_returncode (cli host radiation_argv) = 0%Z ->
        child_returncode (cli host surface_argv) = 0%Z ->
        fst result = Returned tt
        /\ new = [PathChecked scenario_path;
                  Spawned radiation_argv; PathChecked radiation]
                 ++ (if on_disk host w radiation then []
                     else [ErrorMessageSet 0 no_radiation])
                 ++ [Spawned surface_argv; PathChecked surface]
                 ++ (if on_disk host w surface then []
                     else [ErrorMessageSet 0 no_radiation]))
    /\ (on_disk host w scenario_path = true ->
        python_pth host w = None ->
        fst result = Raised pth_not_found
        /\ new = [PathChecked scenario_path])
    /\ (on_disk host w scenario_path = true ->
        forall content, python_pth host w = Some content ->
        let radiation_argv :=
          [strip content; "-m"; "cea.cli"; "--scenario"; scenario_path;
           "locate"; "get_radiation"] in
        child_returncode (cli host radiation_argv) <> 0%Z ->
        fst result
        = Raised (CalledProcessError
                    (child_returncode (cli host radiation_argv))
                    radiation_argv)
        /\ new = [PathChecked scenario_path; Spawned radiation_argv])
    /\ (on_disk host w scenario_path = true ->
        forall content, python_pth host w = Some content ->
        let radiation_argv :=
          [strip content; "-m"; "cea.cli"; "--scenario"; scenario_path;
           "locate"; "get_radiation"] in
        let surface_argv :=
          [strip content; "-m"; "cea.cli"; "--scenario"; scenario_path;
           "locate"; "get_surface_properties"] in
        let radiation := strip (child_stdout (cli host radiation_argv)) in
        child_returncode (cli host radiation_argv) = 0%Z ->
        child_returncode (cli host surface_argv) <> 0%Z ->
        fst result
        = Raised (CalledProcessError
                    (child_returncode (cli host surface_argv))
                    surface_argv)
        /\ new = [PathChecked scenario_path;
                  Spawned radiation_argv; PathChecked radiation]
                 ++ (if on_disk host w radiation then []
                     else [ErrorMessageSet 0 no_radiation])
                 ++ [Spawned surface_argv]).
Proof.
  cbv zeta.
  destruct (on_disk host w scenario_path) eqn:Hdisk.
  2:{ rewrite (updateMessages_missing _ _ Hdisk). cbn [fst snd events].
      eexists. split; [reflexivity|].
      split; [cbn; tauto|]. split; [tauto|].
      repeat split; discriminate. }
  rewrite (updateMessages_present _ _ Hdisk). cbv zeta.
  assert (Hno : forall es,
             error_messages_set es = []
             \/ error_messages_set es = [(0, no_radiation)]
             \/ error_messages_set es
                = [(0, no_radiation); (0, no_radiation)] ->
             In (0, scenario_not_found scenario_path)
               (error_messages_set es) <-> true = false).
  { intros es [-> | [-> | ->]]; cbn; split; try discriminate;
      intros H; repeat destruct H as [H|H]; try discriminate H;
      contradiction. }
  destruct (python_pth host w) as [content|] eqn:Hpth.
  2:{ exists [PathChecked scenario_path]. cbn [fst snd].
      split; [reflexivity|]. split; [apply Hno; now left|].
      split; [discriminate|].
      split; [intros _ c [=]|].
      split; [intros _ _; split; reflexivity|].
      split; intros _ c [=]. }
  unfold cli_output_argv; cbn [app].
  set (radiation_argv := [strip content; _; _; _; _; _; "get_radiation"]).
  set (surface_argv :=
         [strip content; _; _; _; _; _; "get_surface_properties"]).
  destruct (Z.eqb_spec (child_returncode (cli host radiation_argv)) 0)
    as [Hrad|Hrad].
  2:{ exists [PathChecked scenario_path; Spawned radiation_argv].
      cbn [fst snd].
      split; [cbn; now rewrite <- app_assoc|].
      split; [apply Hno; now left|].
      split; [discriminate|].
      split; [intros _ c [= <-] H; exfalso; exact (Hrad H)|].
      split; [intros _ [=]|].
      split; [intros _ c [= <-] _; split; reflexivity|].
      intros _ c [= <-] H; exfalso; exact (Hrad H). }
  set (radiation := strip (child_stdout (cli host radiation_argv))).
  set (surface := strip (child_stdout (cli host surface_argv))).
  set (w1 := record_event (Spawned radiation_argv) _).
  set (w3 := record_event (Spawned surface_argv) _).
  assert (Hd1 : on_disk host w1 radiation = on_disk host w radiation)
    by reflexivity.
  assert (Hd3 : on_disk host w3 surface = on_disk host w surface).
  { apply on_disk_files. unfold w3; cbn.
    now rewrite after_file_check_files. }
  destruct (Z.eqb_spec (child_returncode (cli host surface_argv)) 0)
    as [Hsurf|Hsurf].
  2:{ exists ([PathChecked scenario_path; Spawned radiation_argv;
               PathChecked radiation]
              ++ (if on_disk host w radiation then []
                  else [ErrorMessageSet 0 no_radiation])
              ++ [Spawned surface_argv]).
      cbn [snd fst]. unfold w3; cbn [events record_event].
      rewrite after_file_check_events, Hd1. unfold w1.
      split; [cbn; now rewrite <- !app_assoc|].
      split; [apply Hno; destruct (on_disk host w radiation); cbn; tauto|].
      split; [discriminate|].
      split; [intros _ c [= <-] _ H; exfalso; exact (Hsurf H)|].
      split; [intros _ [=]|].
      split; [intros _ c [= <-] H; exfalso; exact (H Hrad)|].
      intros _ c [= <-] _ _. split; reflexivity. }
  exists ([PathChecked scenario_path; Spawned radiation_argv;
           PathChecked radiation]
          ++ (if on_disk host w radiation then []
              else [ErrorMessageSet 0 no_radiation])
          ++ [Spawned surface_argv; PathChecked surface]
          ++ (if on_disk host w surface then []
              else [ErrorMessageSet 0 no_radiation])).
  cbn [snd fst]. rewrite after_file_check_events, Hd3.
  unfold w3; cbn [events record_event].
  rewrite after_file_check_events, Hd1. unfold w1.
  split; [cbn; now rewrite <- !app_assoc|].
  split.
  { apply Hno. destruct (on_disk host w radiation),
      (on_disk host w surface); cbn; tauto. }
  split; [discriminate|].
  split; [intros _ c [= <-] _ _; split; reflexivity|].
  split; [intros _ [=]|].
  split; [intros _ c [= <-] H; exfalso; exact (H Hrad)|].
  intros _ c [= <-] _ H; exfalso; exact (H Hsurf).
Qed.

(** ** [DemandTool.execute] *)

Lemma execute_weather_path_unlisted (fuel : nat) (weather_name : string)
    (w w1 : World) (names : list string) :
  get_weather_names host fuel w = (Returned names, w1) ->
  ~ In weather_name names ->
  execute_weather_path host fuel weather_name w
  = (if on_disk host w weather_name && endswith weather_name ".epw"
     then ret weather_name
     else get_weather host None)
      (record_event (PathChecked weather_name) w1).
Proof.
  intros Hnames Hname. unfold execute_weather_path, bind.
  rewrite Hnames.
  destruct (contains names weather_name) eqn:Hin;
    [apply contains_In in Hin; contradiction|].
  unfold os_path_exists.
  rewrite (on_disk_files w w1) by exact (get_weather_names_files _ _ _ _ Hnames).
  reflexivity.
Qed.

(** C4: a weather argument that is not in the list of registered names and
    is not an existing path ending in [.epw] resolves to what the lookup
    without argument, [get_weather()], gives at that point: the query
    [weather-path default]. *)
Theorem weather_fallback_is_default (fuel : nat)
    (scenario_path weather_name : string) (w w1 : World)
    (names : list string)
    (Hnames : get_weather_names host fuel w = (Returned names, w1))
    (Hname : ~ In weather_name names)
    (Hpath : ~ (on_disk host w weather_name = true
                /\ endswith weather_name ".epw" = true)) :
  let w2 := record_event (PathChecked weather_name) w1 in
  execute_weather_path host fuel weather_name w = get_weather host None w2
  /\ get_weather host None = _cli_output host "" ["weather-path"; "default"]
  /\ execute host fuel scenario_path weather_name w
     = (let! weather_path := get_weather host None in
        run_cli host fuel scenario_path ["demand"; "--weather"; weather_path])
         w2.
Proof.
  cbv zeta.
  assert (Hresolve : execute_weather_path host fuel weather_name w
                     = get_weather host None
                         (record_event (PathChecked weather_name) w1)).
  { rewrite (execute_weather_path_unlisted _ _ _ _ _ Hnames Hname).
    destruct (on_disk host w weather_name), (endswith weather_name ".epw");
      try reflexivity.
    exfalso. apply Hpath. split; reflexivity. }
  repeat split; [exact Hresolve|].
  unfold execute, bind. now rewrite Hresolve.
Qed.

Lemma execute_weather_path_registered (fuel : nat) (weather_name : string)
    (w w1 : World) (names : list string) :
  get_weather_names host fuel w = (Returned names, w1) ->
  In weather_name names ->
  execute_weather_path host fuel weather_name w
  = get_weather host (Some weather_name) w1.
Proof.
  intros Hnames Hin. unfold execute_weather_path, bind. rewrite Hnames.
  apply contains_In in Hin. now rewrite Hin.
Qed.

(** C5, as the code has it: a weather argument that is an existing path
    ending in [.epw] is the resolved weather path, and no lookup is made
    for it, when it is not a registered name.  When it is also a
    registered name, the name goes first: the weather path is what the
    lookup [weather-path <name>] gives, whatever is on disk. *)
Theorem epw_path_used_directly (fuel : nat)
    (scenario_path weather_name : string) (w w1 : World)
    (names : list string)
    (Hnames : get_weather_names host fuel w = (Returned names, w1))
    (Hdisk : on_disk host w weather_name = true)
    (Hepw : endswith weather_name ".epw" = true) :
  (~ In weather_name names ->
   let w2 := record_event (PathChecked weather_name) w1 in
   execute_weather_path host fuel weather_name w
   = (Returned weather_name, w2)
   /\ spawned (events w2) = spawned (events w1)
   /\ execute host fuel scenario_path weather_name w
      = run_cli host fuel scenario_path
          ["demand"; "--weather"; weather_name] w2)
  /\ (In weather_name names ->
      execute_weather_path host fuel weather_name w
      = _cli_output host "" ["weather-path"; weather_name] w1
      /\ execute host fuel scenario_path weather_name w
         = (let! weather_path :=
              _cli_output host "" ["weather-path"; weather_name] in
            run_cli host fuel scenario_path
              ["demand"; "--weather"; weather_path]) w1).
Proof.
  split.
  - intros Hname. cbv zeta.
    assert (Hresolve : execute_weather_path host fuel weather_name w
                       = (Returned weather_name,
                          record_event (PathChecked weather_name) w1)).
    { rewrite (execute_weather_path_unlisted _ _ _ _ _ Hnames Hname).
      now rewrite Hdisk, Hepw. }
    repeat split; [exact Hresolve| |].
    + unfold spawned; cbn. rewrite flat_map_app; cbn. apply app_nil_r.
    + unfold execute, bind. now rewrite Hresolve.
  - intros Hin.
    pose proof (execute_weather_path_registered _ _ _ _ _ Hnames Hin)
      as Hresolve.
    split; [exact Hresolve|].
    unfold execute, bind. now rewrite Hresolve.
Qed.

(** ** [run_cli] *)

(** C7, as the code has it: with the interpreter file in place and a loop
    budget above the length of the child's output, [run_cli] returns; it
    has logged each line of the child's standard output once, stripped, in
    order (and an empty message for each turn of the loop in which the
    output had ended and the child had not yet exited), then the unread
    rest of standard output, which is empty, and then the child's standard
    error.  No line is logged a second time. *)
Theorem run_cli_logs_each_line_once (fuel : nat) (scenario_path : string)
    (args : list string) (w : World) (content : string)
    (Hpth : python_pth host w = Some content) :
  let argv := [strip content; "-u"; "-m"; "cea.cli"; "--scenario";
               scenario_path] ++ args in
  let child := cli host argv in
  let streamed := map rstrip (split_lines (child_stdout child))
                    ++ repeat "" (child_linger child) in
  String.length (child_stdout child) + child_linger child < fuel ->
  let result := run_cli host fuel scenario_path args w in
  fst result = Returned tt
  /\ events (snd result)
     = events w ++ Spawned argv
                     :: logged host (streamed ++ [""; child_stderr child])
  /\ messages_added (events (snd result))
     = messages_added (events w) ++ streamed ++ [""; child_stderr child].
Proof.
  cbv zeta. intros Hfuel.
  rewrite (run_cli_spec _ _ _ _ _ Hpth Hfuel). cbn [fst snd].
  rewrite after_messages_events. cbn [events record_event].
  unfold run_cli_argv.
  set (argv := _ ++ args) in *.
  set (said := (_ ++ _) ++ [_; _]).
  split; [reflexivity|]. split.
  - now rewrite <- (app_assoc (events w)).
  - rewrite !messages_added_app, messages_added_logged.
    change (messages_added [Spawned argv]) with (@nil string).
    rewrite app_nil_r. unfold said. now rewrite <- app_assoc.
Qed.

End Facts.

(** ** The statements on the demonstration machine *)

Lemma add_message_witness :
  str_mod demo_host "%(pct)s%% done" [("pct", "50")] = inr "50% done"
  /\ fst (add_message demo_host "%(pct)s%% done" [("pct", "50")] bare_world)
     = Returned tt
  /\ files (snd (add_message demo_host "%(pct)s%% done" [("pct", "50")]
                   bare_world)) !! "C:/Temp/cea.log"
     = Some "50% done"
  /\ add_message demo_host "%(pct)s%% done" [("n", "1")] bare_world
     = (Raised (KeyError "pct"), bare_world).
Proof.
  assert (Hfmt : str_mod demo_host "%(pct)s%% done" [("pct", "50")]
                 = inr "50% done") by reflexivity.
  split; [exact Hfmt|].
  pose proof (proj1 (add_message_appends_to_log demo_host "%(pct)s%% done"
                       [("pct", "50")] bare_world)) as Hok.
  cbv zeta in Hok.
  destruct Hok as (Hout & _ & _ & Hlog & _).
  split; [exact Hout|]. split; [exact Hlog|].
  exact (proj1 (add_message_appends_to_log demo_host "%(pct)s%% done"
                  [("n", "1")] bare_world)).
Defined.

(** C9 fails as stated: a message with a percent sign at its end and a
    keyword argument cannot be formatted; the call ends with [ValueError]
    and has shown and written nothing. *)
Lemma malformed_format_writes_nothing :
  let result := add_message demo_host "progress: 50%" [("pct", "50")]
                  demo_world in
  fst result = Raised (ValueError "incomplete format")
  /\ snd result = demo_world
  /\ file_writes (events (snd result)) = []
  /\ messages_added (events (snd result)) = [].
Proof. repeat split. Qed.

Lemma missing_pth_witness :
  files bare_world !! expanduser demo_host "~/cea_python.pth" = None
  /\ get_radiation demo_host "C:/scenario" bare_world
     = (Raised pth_not_found, bare_world)
  /\ run_cli demo_host 0 "C:/scenario" ["demand"] bare_world
     = (Raised pth_not_found, bare_world)
  /\ get_weather_names demo_host 0 bare_world
     = (Raised pth_not_found, bare_world).
Proof.
  assert (H : files bare_world !! expanduser demo_host "~/cea_python.pth"
              = None) by reflexivity.
  pose proof (missing_pth_fails_before_spawn demo_host bare_world
                (or_introl H)) as (_ & _ & Hrun & Hnames & _ & Hrad & _).
  split; [exact H|]. split; [apply Hrad|]. split; [apply Hrun|apply Hnames].
Defined.

Lemma cli_output_exit_status_witness :
  python_pth demo_host demo_world = Some (python +:+ lf)
  /\ _cli_output demo_host "C:/scenario" ["locate"; "get_radiation"]
       demo_world
     = (Returned "C:/scenario/outputs/get_radiation.csv",
        record_event
          (Spawned [python; "-m"; "cea.cli"; "--scenario"; "C:/scenario";
                    "locate"; "get_radiation"]) demo_world)
  /\ _cli_output demo_host "C:/broken" ["locate"; "get_radiation"]
       demo_world
     = (Raised (CalledProcessError 1
                  [python; "-m"; "cea.cli"; "--scenario"; "C:/broken";
                   "locate"; "get_radiation"]),
        record_event
          (Spawned [python; "-m"; "cea.cli"; "--scenario"; "C:/broken";
                    "locate"; "get_radiation"]) demo_world).
Proof.
  assert (H : python_pth demo_host demo_world = Some (python +:+ lf))
    by reflexivity.
  split; [exact H|]. split.
  - apply (cli_output_exit_status demo_host demo_world _ "C:/scenario"
             ["locate"; "get_radiation"] H).
    reflexivity.
  - apply (cli_output_exit_status demo_host demo_world _ "C:/broken"
             ["locate"; "get_radiation"] H).
    discriminate.
Defined.

(** C2 fails as stated: the [locate] query of a child that exits with
    status 1 does not return the child's (empty) output; the caller gets
    [CalledProcessError]. *)
Lemma nonzero_exit_reaches_caller :
  let argv := [python; "-m"; "cea.cli"; "--scenario"; "C:/broken";
               "locate"; "get_radiation"] in
  child_returncode (cli demo_host argv) = 1%Z
  /\ child_stdout (cli demo_host argv) = ""
  /\ fst (get_radiation demo_host "C:/broken" demo_world)
     = Raised (CalledProcessError 1 argv)
  /\ fst (get_radiation demo_host "C:/broken" demo_world) <> Returned "".
Proof. repeat split. discriminate. Qed.

Lemma demo_weather_names :
  get_weather_names demo_host 20 demo_world
  = (Returned ["Zurich"; "city.epw"],
     record_event (Spawned listing_argv) demo_world).
Proof. vm_compute. reflexivity. Qed.

Lemma weather_fallback_witness :
  ~ In "Basel" ["Zurich"; "city.epw"]
  /\ on_disk demo_host demo_world "Basel" = false
  /\ execute_weather_path demo_host 20 "Basel" demo_world
     = (Returned "C:/cea/weather/default.epw",
        record_event
          (Spawned [python; "-m"; "cea.cli"; "--scenario"; "";
                    "weather-path"; "default"])
          (record_event (PathChecked "Basel")
             (record_event (Spawned listing_argv) demo_world))).
Proof.
  assert (Hname : ~ In "Basel" ["Zurich"; "city.epw"])
    by (intros [H|[H|[]]]; discriminate H).
  assert (Hdisk : on_disk demo_host demo_world "Basel" = false)
    by reflexivity.
  split; [exact Hname|]. split; [exact Hdisk|].
  rewrite (proj1 (weather_fallback_is_default demo_host 20 "C:/scenario"
                    "Basel" demo_world _ _ demo_weather_names Hname
                    ltac:(intros [H _]; rewrite Hdisk in H; discriminate H))).
  vm_compute. reflexivity.
Defined.

Lemma epw_path_witness :
  ~ In "C:/data/site.epw" ["Zurich"; "city.epw"]
  /\ on_disk demo_host demo_world "C:/data/site.epw" = true
  /\ endswith "C:/data/site.epw" ".epw" = true
  /\ execute_weather_path demo_host 20 "C:/data/site.epw" demo_world
     = (Returned "C:/data/site.epw",
        record_event (PathChecked "C:/data/site.epw")
          (record_event (Spawned listing_argv) demo_world))
  /\ In "city.epw" ["Zurich"; "city.epw"]
  /\ on_disk demo_host demo_world "city.epw" = true
  /\ endswith "city.epw" ".epw" = true
  /\ execute_weather_path demo_host 20 "city.epw" demo_world
     = (Returned "C:/cea/weather/city.epw.epw",
        record_event
          (Spawned [python; "-m"; "cea.cli"; "--scenario"; "";
                    "weather-path"; "city.epw"])
          (record_event (Spawned listing_argv) demo_world)).
Proof.
  assert (Hname : ~ In "C:/data/site.epw" ["Zurich"; "city.epw"])
    by (intros [H|[H|[]]]; discriminate H).
  assert (Hin : In "city.epw" ["Zurich"; "city.epw"])
    by (right; left; reflexivity).
  split; [exact Hname|]. split; [reflexivity|]. split; [reflexivity|].
  split.
  { apply (proj1 (epw_path_used_directly demo_host 20 "C:/scenario"
                    "C:/data/site.epw" demo_world _ _ demo_weather_names
                    eq_refl eq_refl) Hname). }
  split; [exact Hin|]. split; [reflexivity|]. split; [reflexivity|].
  rewrite (proj1 (proj2 (epw_path_used_directly demo_host 20 "C:/scenario"
                           "city.epw" demo_world _ _ demo_weather_names
                           eq_refl eq_refl) Hin)).
  vm_compute. reflexivity.
Defined.

(** C5 fails as stated: [city.epw] is a file on disk whose name ends in
    [.epw], and it is also a registered weather name; the name wins and the
    path is replaced by what the lookup prints. *)
Lemma listed_epw_path_is_looked_up :
  on_disk demo_host demo_world "city.epw" = true
  /\ endswith "city.epw" ".epw" = true
  /\ fst (execute_weather_path demo_host 20 "city.epw" demo_world)
     = Returned "C:/cea/weather/city.epw.epw"
  /\ fst (execute_weather_path demo_host 20 "city.epw" demo_world)
     <> Returned "city.epw"
  /\ spawned (events (snd (execute_weather_path demo_host 20 "city.epw"
                             demo_world)))
     = [listing_argv;
        [python; "-m"; "cea.cli"; "--scenario"; ""; "weather-path";
         "city.epw"]].
Proof. vm_compute. repeat split. discriminate. Qed.

Lemma updateMessages_checks_witness :
  on_disk demo_host demo_world "C:/scenario" = true
  /\ on_disk demo_host demo_world "C:/nowhere" = false
  /\ (exists new,
        events (snd (updateMessages demo_host (Some "C:/scenario")
                       demo_world)) = events demo_world ++ new
        /\ new = [PathChecked "C:/scenario";
                  Spawned [python; "-m"; "cea.cli"; "--scenario";
                           "C:/scenario"; "locate"; "get_radiation"];
                  PathChecked "C:/scenario/outputs/get_radiation.csv";
                  ErrorMessageSet 0 no_radiation;
                  Spawned [python; "-m"; "cea.cli"; "--scenario";
                           "C:/scenario"; "locate";
                           "get_surface_properties"];
                  PathChecked "C:/scenario/outputs/get_surface_properties.csv";
                  ErrorMessageSet 0 no_radiation])
  /\ (exists new,
        events (snd (updateMessages demo_host (Some "C:/nowhere")
                       demo_world)) = events demo_world ++ new
        /\ new = [PathChecked "C:/nowhere";
                  ErrorMessageSet 0 (scenario_not_found "C:/nowhere")])
  /\ (exists new,
        events (snd (updateMessages demo_host (Some "C:/scenario")
                       bare_world)) = events bare_world ++ new
        /\ fst (updateMessages demo_host (Some "C:/scenario") bare_world)
           = Raised pth_not_found
        /\ new = [PathChecked "C:/scenario"])
  /\ (exists new,
        events (snd (updateMessages demo_host (Some "C:/broken")
                       demo_world)) = events demo_world ++ new
        /\ fst (updateMessages demo_host (Some "C:/broken") demo_world)
           = Raised (CalledProcessError 1
                       [python; "-m"; "cea.cli"; "--scenario"; "C:/broken";
                        "locate"; "get_radiation"])
        /\ new = [PathChecked "C:/broken";
                  Spawned [python; "-m"; "cea.cli"; "--scenario";
                           "C:/broken"; "locate"; "get_radiation"]])
  /\ (exists new,
        events (snd (updateMessages surface_broken_host (Some "C:/scenario")
                       demo_world)) = events demo_world ++ new
        /\ fst (updateMessages surface_broken_host (Some "C:/scenario")
                  demo_world)
           = Raised (CalledProcessError 2
                       [python; "-m"; "cea.cli"; "--scenario"; "C:/scenario";
                        "locate"; "get_surface_properties"])
        /\ new = [PathChecked "C:/scenario";
                  Spawned [python; "-m"; "cea.cli"; "--scenario";
                           "C:/scenario"; "locate"; "get_radiation"];
                  PathChecked "C:/scenario/outputs/get_radiation.csv";
                  ErrorMessageSet 0 no_radiation;
                  Spawned [python; "-m"; "cea.cli"; "--scenario";
                           "C:/scenario"; "locate";
                           "get_surface_properties"]]).
Proof.
  split; [reflexivity|]. split; [reflexivity|]. split; [|split; [|split; [|split]]].
  - destruct (updateMessages_checks demo_host demo_world "C:/scenario")
      as (new & Hev & _ & _ & Hpresent & _).
    exists new. split; [exact Hev|].
    destruct (Hpresent eq_refl (python +:+ lf) eq_refl eq_refl eq_refl)
      as [_ ->].
    reflexivity.
  - destruct (updateMessages_checks demo_host demo_world "C:/nowhere")
      as (new & Hev & _ & Hmissing & _).
    exists new. split; [exact Hev|].
    destruct (Hmissing eq_refl) as [_ ->]. reflexivity.
  - destruct (updateMessages_checks demo_host bare_world "C:/scenario")
      as (new & Hev & _ & _ & _ & Hnopth & _).
    exists new. split; [exact Hev|]. exact (Hnopth eq_refl eq_refl).
  - destruct (updateMessages_checks demo_host demo_world "C:/broken")
      as (new & Hev & _ & _ & _ & _ & Hrad & _).
    exists new. split; [exact Hev|].
    apply (Hrad eq_refl (python +:+ lf) eq_refl). discriminate.
  - destruct (updateMessages_checks surface_broken_host demo_world
                "C:/scenario")
      as (new & Hev & _ & _ & _ & _ & _ & Hsurf).
    exists new. split; [exact Hev|].
    destruct (Hsurf eq_refl (python +:+ lf) eq_refl eq_refl
                ltac:(discriminate)) as [Hout ->].
    split; [exact Hout|reflexivity].
Defined.

(** C6 fails as stated: the folder is on disk, the [locate] query for the
    radiation file exits with status 1, and [updateMessages] ends there
    with [CalledProcessError]: no file is checked, the surface-properties
    query is never made, no message is set.  And where only the query for
    the surface-properties file fails, the surface-properties file is not
    checked. *)
Lemma failed_query_stops_validation :
  let result := updateMessages demo_host (Some "C:/broken") demo_world in
  let radiation_argv := [python; "-m"; "cea.cli"; "--scenario"; "C:/broken";
                         "locate"; "get_radiation"] in
  let late := updateMessages surface_broken_host (Some "C:/scenario")
                demo_world in
  on_disk demo_host demo_world "C:/broken" = true
  /\ fst result = Raised (CalledProcessError 1 radiation_argv)
  /\ paths_checked (events (snd result)) = ["C:/broken"]
  /\ spawned (events (snd result)) = [radiation_argv]
  /\ error_messages_set (events (snd result)) = []
  /\ on_disk surface_broken_host demo_world "C:/scenario" = true
  /\ fst late
     = Raised (CalledProcessError 2
                 [python; "-m"; "cea.cli"; "--scenario"; "C:/scenario";
                  "locate"; "get_surface_properties"])
  /\ paths_checked (events (snd late))
     = ["C:/scenario"; "C:/scenario/outputs/get_radiation.csv"].
Proof. vm_compute. repeat split. Qed.

Lemma run_cli_witness :
  let argv := [python; "-u"; "-m"; "cea.cli"; "--scenario"; "C:/scenario";
               "radiation"] in
  python_pth demo_host demo_world = Some (python +:+ lf)
  /\ String.length (child_stdout (cli demo_host argv))
     + child_linger (cli demo_host argv) < 20
  /\ messages_added
       (events (snd (run_cli demo_host 20 "C:/scenario" ["radiation"]
                       demo_world)))
     = ["working"; ""; ""; ""; ""].
Proof.
  cbv zeta.
  assert (Hpth : python_pth demo_host demo_world = Some (python +:+ lf))
    by reflexivity.
  assert (Hfuel :
            String.length
              (child_stdout
                 (cli demo_host
                    ([strip (python +:+ lf); "-u"; "-m"; "cea.cli";
                      "--scenario"; "C:/scenario"] ++ ["radiation"])))
            + child_linger
                (cli demo_host
                   ([strip (python +:+ lf); "-u"; "-m"; "cea.cli";
                     "--scenario"; "C:/scenario"] ++ ["radiation"]))
            < 20)
    by (apply Nat.ltb_lt; vm_compute; reflexivity).
  split; [exact Hpth|]. split; [exact Hfuel|].
  rewrite (proj2 (proj2 (run_cli_logs_each_line_once demo_host 20
                           "C:/scenario" ["radiation"] demo_world _
                           Hpth Hfuel))).
  reflexivity.
Defined.

(** C7 fails as stated: the child prints two lines and a warning; each
    line is logged once, the message logged after the loop for standard
    output is empty, and the last streamed line is not logged again. *)
Lemma streamed_lines_logged_once :
  let result := run_cli demo_host 40 "C:/scenario"
                  ["demand"; "--weather"; "C:/data/site.epw"] demo_world in
  let argv := [python; "-u"; "-m"; "cea.cli"; "--scenario"; "C:/scenario";
               "demand"; "--weather"; "C:/data/site.epw"] in
  child_stdout (cli demo_host argv)
  = "reading input" +:+ lf +:+ "done" +:+ lf
  /\ child_stderr (cli demo_host argv) = "warning"
  /\ fst result = Returned tt
  /\ messages_added (events (snd result))
     = ["reading input"; "done"; ""; "warning"]
  /\ count_occ string_dec (messages_added (events (snd result))) "done" = 1
  /\ files (snd result) !! "C:/Temp/cea.log"
     = Some "reading inputdonewarning".
Proof. vm_compute. repeat split. Qed.

End ArcGISFacts.

(* ===================================================================== *)
(** * Part V: more on [network_layout_main.py] *)
(* ===================================================================== *)

Module NetworkLayoutMore.

Import NetworkLayout.

Section Facts.

Context {Real GIS : Type}.
Variable perform : StageCall Real -> GIS -> GIS.
Variable os_path : OsPath.
Variable path_exists : string -> bool.
Variable new_locator : string -> InputLocator.

(** X1: [main] lays the network out exactly when the scenario folder is on
    disk.  Without the folder its [assert] fails with the folder's name in
    the message and no stage is called.  With it, the three stages run on
    the locator of that scenario, reading the streets from [streets.shp]
    in the electric-networks folder, with no plant buildings, the empty
    network name and the optimization flag off. *)
Theorem main_layout (config : ScenarioConfiguration Real)
    (s : Site Real GIS) :
  let locator := new_locator (scenario config) in
  let run := main perform os_path path_exists new_locator config s in
  (path_exists (scenario config) = false ->
   run = AssertionFailed ("Scenario not found: " +:+ scenario config))
  /\ (path_exists (scenario config) = true ->
      exists s' db folder edges out_nodes,
        run = Completed s'
        /\ calls s'
           = calls s
             ++ [calc_substation_location (get_zone_geometry locator)
                   (get_temporary_file locator "nodes_buildings.shp")
                   (buildings (cfg_network_layout (sections config)));
                 calc_connectivity_network db
                   (os_path_join os_path
                      (get_electric_networks_folder locator
                         +:+ "/streets.shp") [])
                   (get_temporary_file locator "nodes_buildings.shp")
                   (get_temporary_file locator "potential_network.shp");
                 calc_steiner_spanning_tree
                   (get_temporary_file locator "potential_network.shp")
                   folder
                   (get_temporary_file locator "nodes_buildings.shp")
                   edges out_nodes "Shape_Leng"
                   (type_mat (cfg_network_layout (sections config)))
                   (pipe_diameter (cfg_network_layout (sections config)))
                   (network_type (cfg_network_layout (sections config)))
                   (get_total_demand locator)
                   (create_plant (cfg_network_layout (sections config)))
                   (allow_looped_networks
                      (cfg_network_layout (sections config)))
                   false []
                   (disconnected_buildings
                      (cfg_thermal_network (sections config)))]
        /\ folder = get_input_network_folder locator
                      (network_type (cfg_network_layout (sections config)))
                      "").
Proof.
  cbv zeta. unfold main. split; intros Hdisk; rewrite Hdisk; cbn [negb].
  - reflexivity.
  - eexists _, _, _, _, _. split; [reflexivity|].
    rewrite NetworkLayoutFacts.network_layout_calls.
    unfold first_call, second_call, third_call, substations_shp,
      potential_network_shp. cbn [default].
    split; [|reflexivity].
    do 3 f_equal.
Qed.

(** X2: the two files handed from stage to stage are temporary files whose
    names depend on the locator alone.  Two layouts on the same scenario,
    whatever their configurations, plant buildings, street files, network
    names and flags, make six stage calls, and the second layout writes its
    substations and its potential network to the files the first one
    wrote. *)
Theorem layouts_share_temporary_files
    (locator : InputLocator)
    (config_a config_b : Configuration Real)
    (plants_a plants_b : list string) (streets_a streets_b : string)
    (name_a name_b : option string) (flag_a flag_b : option bool)
    (s : Site Real GIS) :
  let after_a := network_layout perform os_path config_a locator plants_a
                   streets_a name_a flag_a s in
  let after_b := network_layout perform os_path config_b locator plants_b
                   streets_b name_b flag_b after_a in
  exists a1 a2 a3 b1 b2 b3,
    calls after_b = calls s ++ [a1; a2; a3; b1; b2; b3]
    /\ output_path a1 = Some (get_temporary_file locator "nodes_buildings.shp")
    /\ output_path b1 = output_path a1
    /\ output_path a2
       = Some (get_temporary_file locator "potential_network.shp")
    /\ output_path b2 = output_path a2
    /\ head (input_paths a3) = output_path a2
    /\ head (input_paths b3) = output_path b2.
Proof.
  cbv zeta.
  eexists _, _, _, _, _, _.
  rewrite !NetworkLayoutFacts.network_layout_calls, <- app_assoc.
  split; [reflexivity|]. repeat split.
Qed.

End Facts.

Lemma main_layout_witness :
  (exists s',
     main count_stage demo_os_path (String.eqb "C:/scenario") demo_locator
       demo_config empty_site = Completed s'
     /\ disk s' = 3
     /\ map stage_of (calls s') = [Substations; Connectivity; SteinerTree])
  /\ main count_stage demo_os_path (fun _ => false) demo_locator
       demo_config empty_site
     = AssertionFailed "Scenario not found: C:/scenario".
Proof.
  split.
  - destruct (proj2 (main_layout count_stage demo_os_path
                       (String.eqb "C:/scenario") demo_locator demo_config
                       empty_site) eq_refl)
      as (s' & db & folder & edges & out_nodes & Hrun & Hcalls & _).
    exists s'. split; [exact Hrun|].
    split; [|rewrite Hcalls; reflexivity].
    injection Hrun as <-. reflexivity.
  - apply (proj1 (main_layout count_stage demo_os_path (fun _ => false)
                    demo_locator demo_config empty_site)).
    reflexivity.
Defined.

End NetworkLayoutMore.

(* ===================================================================== *)
(** * Part VI: more on the toolbox *)
(* ===================================================================== *)

Module ArcGISMore.

Import ArcGIS.
Local Open Scope py_scope.

#[local] Arguments add_message : simpl never.
#[local] Arguments after_messages : simpl never.

(** ** Strings *)

Lemma append_assoc (a b c : string) : (a +:+ b) +:+ c = a +:+ (b +:+ c).
Proof.
  induction a as [|x a IH]; [reflexivity|].
  change (String x ((a +:+ b) +:+ c) = String x (a +:+ (b +:+ c))).
  now rewrite IH.
Qed.

Lemma append_empty_r (a : string) : a +:+ "" = a.
Proof.
  induction a as [|x a IH]; [reflexivity|].
  change (String x (a +:+ "") = String x a). now rewrite IH.
Qed.

Lemma text_of_app (xs ys : list string) :
  text_of (xs ++ ys) = text_of xs +:+ text_of ys.
Proof.
  unfold text_of.
  induction xs as [|x xs IH]; cbn [app fold_right]; [reflexivity|].
  now rewrite IH, append_assoc.
Qed.

Lemma text_of_repeat_empty (n : nat) : text_of (repeat "" n) = "".
Proof. induction n as [|n IH]; [reflexivity|exact IH]. Qed.

Lemma rstrip_idempotent (s : string) : rstrip (rstrip s) = rstrip s.
Proof.
  induction s as [|c s IH]; [reflexivity|].
  change (rstrip (String c s))
    with (match rstrip s with
          | EmptyString =>
              if is_space c then EmptyString else String c EmptyString
          | r => String c r
          end).
  destruct (rstrip s) as [|d r] eqn:Hr.
  - destruct (is_space c) eqn:Hc; [reflexivity|]. cbn. now rewrite Hc.
  - change (rstrip (String c (String d r)))
      with (match rstrip (String d r) with
            | EmptyString =>
                if is_space c then EmptyString else String c EmptyString
            | r => String c r
            end).
    now rewrite IH.
Qed.

Lemma rstrip_empty_iff (s : string) : rstrip s = "" <-> blank s = true.
Proof.
  induction s as [|c s IH]; cbn; [tauto|].
  destruct (rstrip s) as [|d r].
  - destruct (is_space c); cbn; [tauto|]. split; discriminate.
  - split; [discriminate|]. intros H. apply andb_prop in H as [_ H].
    apply IH in H. discriminate H.
Qed.

Lemma lstrip_length (s : string) :
  String.length (lstrip s) <= String.length s.
Proof.
  induction s as [|c s IH]; cbn; [lia|].
  destruct (is_space c); cbn; lia.
Qed.

Lemma lstrip_idempotent (s : string) : lstrip (lstrip s) = lstrip s.
Proof.
  induction s as [|c s IH]; [reflexivity|]. cbn.
  destruct (is_space c) eqn:Hc; [exact IH|]. cbn. now rewrite Hc.
Qed.

Lemma lstrip_rstrip (s : string) :
  lstrip s = s -> lstrip (rstrip s) = rstrip s.
Proof.
  destruct s as [|c s]; [reflexivity|]. cbn.
  destruct (is_space c) eqn:Hc.
  - intros H. pose proof (lstrip_length s) as Hlen.
    rewrite H in Hlen. cbn in Hlen. lia.
  - intros _. destruct (rstrip s); cbn; now rewrite Hc.
Qed.

Lemma strip_fixed (s : string) :
  lstrip (strip s) = strip s /\ rstrip (strip s) = strip s.
Proof.
  unfold strip. split.
  - apply lstrip_rstrip, lstrip_idempotent.
  - apply rstrip_idempotent.
Qed.

Lemma strip_idempotent (s : string) : strip (strip s) = strip s.
Proof.
  destruct (strip_fixed s) as [Hl Hr].
  unfold strip at 1. now rewrite Hl, Hr.
Qed.

Section Facts.

Variable host : Host.

(** ** The log file under a run of messages *)

Lemma log_text_add_message (m : string) (w : World) :
  log_text host (snd (add_message host m [] w)) = log_text host w +:+ m.
Proof.
  rewrite ArcGISFacts.add_message_spec. unfold log_text; cbn.
  now rewrite lookup_insert_eq.
Qed.

Lemma files_add_message (m : string) (w : World) (path : string) :
  path <> log_file host ->
  files (snd (add_message host m [] w)) !! path = files w !! path.
Proof.
  intros Hne. rewrite ArcGISFacts.add_message_spec; cbn.
  now apply lookup_insert_ne.
Qed.

Lemma log_text_after_messages (msgs : list string) (w : World) :
  log_text host (after_messages host msgs w)
  = log_text host w +:+ text_of msgs.
Proof.
  revert w; induction msgs as [|m msgs IH]; intros w.
  - rewrite ArcGISFacts.after_messages_nil.
    change (text_of []) with "". now rewrite append_empty_r.
  - rewrite ArcGISFacts.after_messages_cons, IH, log_text_add_message.
    rewrite append_assoc. reflexivity.
Qed.

Lemma files_after_messages (msgs : list string) (w : World)
    (path : string) :
  path <> log_file host ->
  files (after_messages host msgs w) !! path = files w !! path.
Proof.
  intros Hne. revert w; induction msgs as [|m msgs IH]; intros w.
  - reflexivity.
  - now rewrite ArcGISFacts.after_messages_cons, IH, files_add_message.
Qed.

Lemma file_writes_logged (msgs : list string) :
  file_writes (logged host msgs)
  = map (fun m => (log_file host, AppendMode, m)) msgs.
Proof.
  induction msgs as [|m msgs IH]; [reflexivity|].
  cbn. f_equal. exact IH.
Qed.

(** X3: messages pile up in the log.  After [add_message] has been called
    for each text of a list in turn, the log file holds what it held
    before followed by the texts in order, with nothing between them; one
    write in append mode was made for each text, and no other file has
    changed. *)
Theorem messages_accumulate_in_log (msgs : list string) (w : World) :
  let w' := fold_left (fun w m => snd (add_message host m [] w)) msgs w in
  log_text host w' = log_text host w +:+ text_of msgs
  /\ file_writes (events w')
     = file_writes (events w)
       ++ map (fun m => (path_join host (gettempdir host) "cea.log",
                         AppendMode, m)) msgs
  /\ messages_added (events w') = messages_added (events w) ++ msgs
  /\ (forall path, path <> path_join host (gettempdir host) "cea.log" ->
      files w' !! path = files w !! path).
Proof.
  cbv zeta. fold (after_messages host msgs w).
  split; [apply log_text_after_messages|].
  rewrite ArcGISFacts.after_messages_events.
  rewrite ArcGISFacts.file_writes_app, ArcGISFacts.messages_added_app.
  rewrite file_writes_logged, ArcGISFacts.messages_added_logged.
  repeat split. intros path Hne. now apply files_after_messages.
Qed.

(** ** The exit status of the children started with [Popen] *)

Lemma run_cli_loop_outcome (fuel : nat) (p : Popen) (w : World) :
  (exists p', fst (run_cli_loop host fuel p w) = Returned p')
  \/ fst (run_cli_loop host fuel p w) = OutOfFuel.
Proof.
  revert p w; induction fuel as [|fuel IH]; intros p w; [now right|].
  cbn [run_cli_loop].
  destruct (stdout_readline p) as [next_line p1].
  destruct (String.eqb next_line "").
  - destruct (poll p1) as [[status|] p2].
    + left. eexists. reflexivity.
    + unfold bind. rewrite ArcGISFacts.add_message_spec. apply IH.
  - unfold bind. rewrite ArcGISFacts.add_message_spec. apply IH.
Qed.

Lemma run_cli_outcome (fuel : nat) (scenario_path : string)
    (args : list string) (w : World) :
  fst (run_cli host fuel scenario_path args w) = Returned tt
  \/ fst (run_cli host fuel scenario_path args w) = Raised pth_not_found
  \/ fst (run_cli host fuel scenario_path args w) = OutOfFuel.
Proof.
  unfold run_cli, bind. rewrite ArcGISFacts.get_python_exe_spec.
  destruct (python_pth host w) as [content|]; [|now right; left].
  unfold popen.
  match goal with
  | |- context [run_cli_loop host fuel ?p ?w1] =>
      destruct (run_cli_loop_outcome fuel p w1) as [[p' Hp]|Hp];
      destruct (run_cli_loop host fuel p w1) as [o w2]
  end; cbn [fst] in Hp; subst o.
  - left. cbn [communicate]. rewrite ArcGISFacts.add_message_spec.
    now rewrite ArcGISFacts.add_message_spec.
  - now right; right.
Qed.

Lemma run_cli_loop_status (status : Z) (fuel : nat)
    (out err : string) (polls : nat) (rc : Z) (w : World) :
  run_cli_loop (with_exit_status status host) fuel
    {| out_pipe := out; err_pipe := err; polls_pending := polls;
       returncode := status |} w
  = match run_cli_loop host fuel
            {| out_pipe := out; err_pipe := err; polls_pending := polls;
               returncode := rc |} w with
    | (Returned p, w') =>
        (Returned {| out_pipe := out_pipe p; err_pipe := err_pipe p;
                     polls_pending := polls_pending p;
                     returncode := status |}, w')
    | (Raised e, w') => (Raised e, w')
    | (OutOfFuel, w') => (OutOfFuel, w')
    end.
Proof.
  revert out polls w; induction fuel as [|fuel IH]; intros out polls w;
    [reflexivity|].
  cbn [run_cli_loop]. unfold stdout_readline.
  cbn [out_pipe err_pipe polls_pending returncode].
  destruct (readline out) as [line rest].
  destruct (String.eqb line "").
  - unfold poll; cbn [out_pipe err_pipe polls_pending returncode].
    destruct polls as [|polls]; [reflexivity|].
    unfold bind.
    change (add_message (with_exit_status status host))
      with (add_message host).
    rewrite ArcGISFacts.add_message_spec. apply IH.
  - unfold bind.
    change (add_message (with_exit_status status host))
      with (add_message host).
    rewrite ArcGISFacts.add_message_spec. apply IH.
Qed.

(** X4: [run_cli] does not look at the exit status of its child.  On a
    host whose children exit with another status, [run_cli] ends the same
    way and leaves the same world; it never raises [CalledProcessError];
    and with the interpreter file in place and a child that runs to its
    end, it returns whatever the exit status. *)
Theorem run_cli_ignores_exit_status (status : Z) (fuel : nat)
    (scenario_path : string) (args : list string) (w : World) :
  let outcome := fst (run_cli host fuel scenario_path args w) in
  run_cli (with_exit_status status host) fuel scenario_path args w
  = run_cli host fuel scenario_path args w
  /\ (forall code cmd, outcome <> Raised (CalledProcessError code cmd))
  /\ (forall content,
        python_pth host w = Some content ->
        let child :=
          cli host ([strip content; "-u"; "-m"; "cea.cli"; "--scenario";
                     scenario_path] ++ args) in
        String.length (child_stdout child) + child_linger child < fuel ->
        outcome = Returned tt).
Proof.
  cbv zeta. split; [|split].
  - unfold run_cli, bind.
    change (get_python_exe (with_exit_status status host))
      with (get_python_exe host).
    destruct (get_python_exe host w) as [[python_exe| |] w0];
      try reflexivity.
    unfold popen. cbn [cli with_exit_status child_stdout child_stderr
                         child_returncode child_linger].
    match goal with
    | |- context [run_cli_loop host fuel
                    {| out_pipe := ?o; err_pipe := ?e; polls_pending := ?n;
                       returncode := ?rc |} ?w1] =>
        rewrite (run_cli_loop_status status fuel o e n rc w1);
        destruct (run_cli_loop host fuel
                    {| out_pipe := o; err_pipe := e; polls_pending := n;
                       returncode := rc |} w1) as [[p| |] w2]
    end; reflexivity.
  - intros code cmd Heq.
    destruct (run_cli_outcome fuel scenario_path args w) as [H|[H|H]];
      rewrite Heq in H; discriminate H.
  - intros content Hpth Hfuel.
    now rewrite (ArcGISFacts.run_cli_spec host fuel scenario_path args w
                   content Hpth Hfuel).
Qed.

Lemma get_weather_names_loop_names (fuel : nat) (p : Popen)
    (names : list string) :
  get_weather_names_loop fuel p = Some names ->
  names = map rstrip (split_lines (out_pipe p)).
Proof.
  revert p names; induction fuel as [|fuel IH]; intros p names;
    [discriminate|].
  destruct p as [out err polls rc]. cbn [get_weather_names_loop].
  unfold stdout_readline; cbn [out_pipe err_pipe polls_pending returncode].
  destruct out as [|c rest] eqn:Hout.
  - cbn. now intros [= <-].
  - rewrite <- Hout.
    assert (Hne : out <> "") by (subst; discriminate).
    pose proof (ArcGISFacts.split_lines_readline out Hne) as Hsplit.
    pose proof (ArcGISFacts.readline_empty_iff out) as Hempty.
    destruct (readline out) as [line rest'] eqn:Hrl; cbn [fst snd] in *.
    destruct (String.eqb_spec line ""); [tauto|].
    destruct (get_weather_names_loop fuel _) as [more|] eqn:Hmore;
      [|discriminate].
    apply IH in Hmore. cbn [out_pipe] in Hmore.
    cbn. intros [= <-]. now rewrite Hsplit, Hmore.
Qed.

Lemma get_weather_names_loop_stdout (fuel : nat) (p p' : Popen) :
  out_pipe p = out_pipe p' ->
  get_weather_names_loop fuel p = get_weather_names_loop fuel p'.
Proof.
  revert p p'; induction fuel as [|fuel IH]; intros p p' Hout;
    [reflexivity|].
  cbn [get_weather_names_loop]. unfold stdout_readline. rewrite Hout.
  destruct (readline (out_pipe p')) as [line rest].
  destruct (String.eqb line ""); [reflexivity|].
  now rewrite (IH _ {| out_pipe := rest; err_pipe := err_pipe p';
                       polls_pending := polls_pending p';
                       returncode := returncode p' |}).
Qed.

(** X5: [get_weather_names] reads standard output only.  When it returns,
    it has started one child, [<python> -u -m cea.cli weather-files], and
    its result is the child's output line by line, each line stripped on
    the right, so no name ends in white space; and on a host whose
    children exit with another status and write something else to their
    error output, it ends the same way and leaves the same world. *)
Theorem get_weather_names_reads_stdout (fuel : nat) (w w' : World)
    (names : list string)
    (Hnames : get_weather_names host fuel w = (Returned names, w')) :
  (exists content,
     python_pth host w = Some content
     /\ w' = record_event
               (Spawned [strip content; "-u"; "-m"; "cea.cli";
                         "weather-files"]) w
     /\ names
        = map rstrip
            (split_lines
               (child_stdout
                  (cli host [strip content; "-u"; "-m"; "cea.cli";
                             "weather-files"])))
     /\ Forall (fun n => rstrip n = n) names)
  /\ (forall status text fuel0 w0,
        get_weather_names (with_exit_status status (with_stderr text host))
          fuel0 w0
        = get_weather_names host fuel0 w0).
Proof.
  split.
  - rewrite ArcGISFacts.get_weather_names_spec in Hnames.
    destruct (python_pth host w) as [content|]; [|discriminate].
    cbv zeta in Hnames. unfold weather_files_argv in Hnames.
    destruct (get_weather_names_loop fuel _) as [found|] eqn:Hloop;
      [|discriminate].
    injection Hnames as <- <-.
    apply get_weather_names_loop_names in Hloop. cbn [out_pipe] in Hloop.
    exists content. repeat split; [exact Hloop|].
    rewrite Hloop. clear Hloop.
    induction (split_lines _) as [|line more IH]; cbn [map];
      [constructor|constructor; [apply rstrip_idempotent|exact IH]].
  - intros status text fuel0 w0.
    unfold get_weather_names, bind.
    change (get_python_exe
              (with_exit_status status (with_stderr text host)))
      with (get_python_exe host).
    destruct (get_python_exe host w0) as [[python_exe| |] w1];
      try reflexivity.
    unfold popen.
    cbn [cli with_exit_status with_stderr child_stdout child_stderr
           child_returncode child_linger].
    match goal with
    | |- context [get_weather_names_loop fuel0 ?p] =>
        match goal with
        | |- _ = match get_weather_names_loop fuel0 ?q with _ => _ end _ =>
            rewrite (get_weather_names_loop_stdout fuel0 p q eq_refl)
        end
    end.
    reflexivity.
Qed.

(** X6: what a run of [run_cli] leaves in the log file.  With the
    interpreter file in place and budget enough, the log holds what it
    held before, then the lines of the child's standard output, each
    stripped on the right and with nothing between them, then the
    child's error output; no other file has changed. *)
Theorem run_cli_log_text (fuel : nat) (scenario_path : string)
    (args : list string) (w : World) (content : string)
    (Hpth : python_pth host w = Some content) :
  let child :=
    cli host ([strip content; "-u"; "-m"; "cea.cli"; "--scenario";
               scenario_path] ++ args) in
  String.length (child_stdout child) + child_linger child < fuel ->
  let w' := snd (run_cli host fuel scenario_path args w) in
  log_text host w'
  = log_text host w
    +:+ text_of (map rstrip (split_lines (child_stdout child)))
    +:+ child_stderr child
  /\ (forall path, path <> path_join host (gettempdir host) "cea.log" ->
      files w' !! path = files w !! path).
Proof.
  cbv zeta. intros Hfuel.
  rewrite (ArcGISFacts.run_cli_spec host fuel scenario_path args w content
             Hpth Hfuel). cbn [snd].
  split.
  - rewrite log_text_after_messages, !text_of_app, text_of_repeat_empty.
    unfold run_cli_argv.
    change (text_of [""; child_stderr ?c]) with ("" +:+ child_stderr c +:+ "").
    change (log_text host (record_event ?e w)) with (log_text host w).
    rewrite append_empty_r, append_empty_r. reflexivity.
  - intros path Hne. now rewrite files_after_messages.
Qed.

(** ** [DemandTool.updateMessages]: what it leaves alone, what it sets *)

Lemma untouched_refl (w : World) : untouched_by_validation w w.
Proof. repeat split. Qed.

Lemma untouched_trans (w1 w2 w3 : World) :
  untouched_by_validation w1 w2 -> untouched_by_validation w2 w3 ->
  untouched_by_validation w1 w3.
Proof.
  intros (Hf & Hm & Hw & Hp) (Hf' & Hm' & Hw' & Hp').
  repeat split; try congruence.
  intros index Hne. now rewrite Hp', Hp.
Qed.

Lemma untouched_check (path : string) (w : World) :
  untouched_by_validation w (record_event (PathChecked path) w).
Proof.
  repeat split; cbn [events record_event].
  - now rewrite ArcGISFacts.messages_added_app, app_nil_r.
  - now rewrite ArcGISFacts.file_writes_app, app_nil_r.
Qed.

Lemma untouched_spawn (argv : list string) (w : World) :
  untouched_by_validation w (record_event (Spawned argv) w).
Proof.
  repeat split; cbn [events record_event].
  - now rewrite ArcGISFacts.messages_added_app, app_nil_r.
  - now rewrite ArcGISFacts.file_writes_app, app_nil_r.
Qed.

Lemma untouched_setErrorMessage (msg : string) (w : World) :
  untouched_by_validation w (snd (setErrorMessage 0 msg w)).
Proof.
  repeat split; cbn [snd setErrorMessage events param_errors].
  - now rewrite ArcGISFacts.messages_added_app, app_nil_r.
  - now rewrite ArcGISFacts.file_writes_app, app_nil_r.
  - intros index Hne. apply lookup_insert_ne. congruence.
Qed.

Lemma untouched_file_check (path : string) (w : World) :
  untouched_by_validation w (after_file_check host path w).
Proof.
  unfold after_file_check. destruct (on_disk host w path).
  - apply untouched_check.
  - eapply untouched_trans;
      [apply untouched_check|apply untouched_setErrorMessage].
Qed.

Lemma after_file_check_param_errors (path : string) (w : World) :
  param_errors (after_file_check host path w)
  = if on_disk host w path then param_errors w
    else <[0 := no_radiation]> (param_errors w).
Proof. unfold after_file_check. now destruct (on_disk host w path). Qed.

(** X7: validation only reports.  However [updateMessages] ends, it has
    changed no file, has shown and logged no message, and has set a
    message on no parameter but the first (the scenario path): the
    weather parameter never gets one. *)
Theorem updateMessages_only_reports (scenario_path : option string)
    (w : World) :
  let w' := snd (updateMessages host scenario_path w) in
  files w' = files w
  /\ messages_added (events w') = messages_added (events w)
  /\ file_writes (events w') = file_writes (events w)
  /\ (forall index, index <> 0 ->
      param_errors w' !! index = param_errors w !! index).
Proof.
  cbv zeta. change (untouched_by_validation w
                      (snd (updateMessages host scenario_path w))).
  destruct scenario_path as [scenario_path|]; [|apply untouched_refl].
  destruct (on_disk host w scenario_path) eqn:Hdisk.
  - rewrite (ArcGISFacts.updateMessages_present host _ _ Hdisk). cbv zeta.
    assert (H0 := untouched_check scenario_path w).
    destruct (python_pth host w) as [content|]; [|exact H0].
    match goal with
    | |- context [record_event (Spawned ?argv)
                    (record_event (PathChecked scenario_path) w)] =>
        assert (H1 := untouched_trans _ _ _ H0
                        (untouched_spawn argv
                           (record_event (PathChecked scenario_path) w)))
    end.
    destruct (Z.eqb _ 0); [|exact H1].
    match goal with
    | |- context [record_event (Spawned ?argv)
                    (after_file_check host ?path ?w1)] =>
        assert (H2 := untouched_trans _ _ _
                        (untouched_trans _ _ _ H1
                           (untouched_file_check path w1))
                        (untouched_spawn argv
                           (after_file_check host path w1)))
    end.
    destruct (Z.eqb _ 0); [|exact H2].
    cbn [snd]. eapply untouched_trans; [exact H2|].
    apply untouched_file_check.
  - rewrite (ArcGISFacts.updateMessages_missing host _ _ Hdisk). cbn [snd].
    repeat split; cbn [events param_errors files].
    + now rewrite ArcGISFacts.messages_added_app, app_nil_r.
    + now rewrite ArcGISFacts.file_writes_app, app_nil_r.
    + intros index Hne. apply lookup_insert_ne. congruence.
Qed.

(** X8: the message validation leaves on the scenario parameter.  With
    the folder on disk and both [locate] queries returning, the parameter
    keeps the message it had when the radiation file and the
    surface-properties file are both on disk, and carries the one text
    "No radiation data found ..." when either is missing: the text does
    not tell which. *)
Theorem updateMessages_message (scenario_path : string) (w : World)
    (content : string)
    (Hdisk : on_disk host w scenario_path = true)
    (Hpth : python_pth host w = Some content) :
  let radiation_argv :=
    [strip content; "-m"; "cea.cli"; "--scenario"; scenario_path;
     "locate"; "get_radiation"] in
  let surface_argv :=
    [strip content; "-m"; "cea.cli"; "--scenario"; scenario_path;
     "locate"; "get_surface_properties"] in
  let radiation := strip (child_stdout (cli host radiation_argv)) in
  let surface := strip (child_stdout (cli host surface_argv)) in
  child_returncode (cli host radiation_argv) = 0%Z ->
  child_returncode (cli host surface_argv) = 0%Z ->
  param_errors (snd (updateMessages host (Some scenario_path) w))
  = if on_disk host w radiation && on_disk host w surface
    then param_errors w
    else <[0 := "No radiation data found for scenario. Run radiation script first."]>
           (param_errors w).
Proof.
  cbv zeta. intros Hrad Hsurf.
  rewrite (ArcGISFacts.updateMessages_present host _ _ Hdisk), Hpth.
  cbv zeta. unfold cli_output_argv; cbn [app].
  rewrite Hrad, Hsurf. cbn [Z.eqb snd].
  rewrite after_file_check_param_errors. cbn [param_errors record_event].
  rewrite after_file_check_param_errors. cbn [param_errors record_event].
  match goal with
  | |- context [on_disk host (record_event ?e (after_file_check host ?p ?w1))
                  ?q] =>
      replace (on_disk host (record_event e (after_file_check host p w1)) q)
        with (on_disk host w q)
        by (symmetry; apply ArcGISFacts.on_disk_files; cbn;
            now rewrite ArcGISFacts.after_file_check_files)
  end.
  match goal with
  | |- context [on_disk host (record_event ?e (record_event ?e' w)) ?q] =>
      change (on_disk host (record_event e (record_event e' w)) q)
        with (on_disk host w q)
  end.
  destruct (on_disk host w (strip (child_stdout (cli host
              [strip content; "-m"; "cea.cli"; "--scenario"; scenario_path;
               "locate"; "get_radiation"])))),
           (on_disk host w (strip (child_stdout (cli host
              [strip content; "-m"; "cea.cli"; "--scenario"; scenario_path;
               "locate"; "get_surface_properties"]))));
    cbn [andb]; try reflexivity.
  unfold no_radiation. apply insert_insert_eq.
Qed.

(** ** [DemandTool.execute] from end to end *)

Lemma spawned_app (xs ys : list Event) :
  spawned (xs ++ ys) = spawned xs ++ spawned ys.
Proof. unfold spawned. apply flat_map_app. Qed.

Lemma paths_checked_app (xs ys : list Event) :
  paths_checked (xs ++ ys) = paths_checked xs ++ paths_checked ys.
Proof. unfold paths_checked. apply flat_map_app. Qed.

Lemma spawned_logged (msgs : list string) : spawned (logged host msgs) = [].
Proof. induction msgs as [|m msgs IH]; [reflexivity|exact IH]. Qed.

(** The listing, with the interpreter file in place and budget enough. *)
Lemma listing_returns (fuel : nat) (w : World) (content : string) :
  python_pth host w = Some content ->
  String.length
    (child_stdout
       (cli host [strip content; "-u"; "-m"; "cea.cli"; "weather-files"]))
  < fuel ->
  get_weather_names host fuel w
  = (Returned
       (map rstrip
          (split_lines
             (child_stdout
                (cli host [strip content; "-u"; "-m"; "cea.cli";
                           "weather-files"])))),
     record_event
       (Spawned [strip content; "-u"; "-m"; "cea.cli"; "weather-files"]) w).
Proof. apply ArcGISFacts.get_weather_names_returns. Qed.

Lemma execute_weather_path_listed (fuel : nat) (weather_name : string)
    (w w1 : World) (names : list string) :
  get_weather_names host fuel w = (Returned names, w1) ->
  In weather_name names ->
  execute_weather_path host fuel weather_name w
  = _cli_output host "" ["weather-path"; weather_name] w1.
Proof.
  intros Hnames Hin. unfold execute_weather_path, bind. rewrite Hnames.
  apply ArcGISFacts.contains_In in Hin. now rewrite Hin.
Qed.

(** X9: a registered weather name is resolved by the command line.  For
    an argument that is in the list of names, the weather path is the
    result of the query [weather-path <name>], and the disk is not asked
    whether the argument exists as a path. *)
Theorem listed_name_is_looked_up (fuel : nat) (weather_name : string)
    (w w1 : World) (names : list string)
    (Hnames : get_weather_names host fuel w = (Returned names, w1))
    (Hin : In weather_name names) :
  execute_weather_path host fuel weather_name w
  = _cli_output host "" ["weather-path"; weather_name] w1
  /\ get_weather host (Some weather_name)
     = _cli_output host "" ["weather-path"; weather_name]
  /\ paths_checked
       (events (snd (execute_weather_path host fuel weather_name w)))
     = paths_checked (events w).
Proof.
  rewrite (execute_weather_path_listed _ _ _ _ _ Hnames Hin).
  repeat split.
  rewrite ArcGISFacts.get_weather_names_spec in Hnames.
  destruct (python_pth host w) as [content|] eqn:Hpth; [|discriminate].
  cbv zeta in Hnames. injection Hnames as _ <-.
  rewrite ArcGISFacts.cli_output_spec.
  change (python_pth host (record_event ?e w)) with (python_pth host w).
  rewrite Hpth. cbv zeta. cbn [snd events record_event].
  now rewrite !paths_checked_app, !app_nil_r.
Qed.

(** X10: a failed weather lookup stops [execute].  When the argument is a
    registered name and the query [weather-path <name>] exits with a
    status other than zero, [execute] raises [CalledProcessError] after
    two children, the listing and the lookup: the [demand] command is not
    started and nothing is logged. *)
Theorem execute_stops_on_failed_lookup (fuel : nat)
    (scenario_path weather_name : string) (w : World) (content : string)
    (Hpth : python_pth host w = Some content) :
  let listing_argv :=
    [strip content; "-u"; "-m"; "cea.cli"; "weather-files"] in
  let lookup_argv :=
    [strip content; "-m"; "cea.cli"; "--scenario"; ""; "weather-path";
     weather_name] in
  String.length (child_stdout (cli host listing_argv)) < fuel ->
  In weather_name
    (map rstrip (split_lines (child_stdout (cli host listing_argv)))) ->
  child_returncode (cli host lookup_argv) <> 0%Z ->
  let result := execute host fuel scenario_path weather_name w in
  fst result
  = Raised (CalledProcessError (child_returncode (cli host lookup_argv))
              lookup_argv)
  /\ spawned (events (snd result))
     = spawned (events w) ++ [listing_argv; lookup_argv]
  /\ messages_added (events (snd result)) = messages_added (events w)
  /\ files (snd result) = files w.
Proof.
  cbv zeta. intros Hfuel Hin Hrc.
  unfold execute, bind.
  rewrite (execute_weather_path_listed _ _ _ _ _
             (listing_returns _ _ _ Hpth Hfuel) Hin).
  rewrite ArcGISFacts.cli_output_spec.
  change (python_pth host (record_event ?e w)) with (python_pth host w).
  rewrite Hpth. cbv zeta. unfold cli_output_argv; cbn [app].
  apply Z.eqb_neq in Hrc. rewrite Hrc. cbn [fst snd events record_event].
  repeat split.
  - rewrite !spawned_app, <- app_assoc. reflexivity.
  - now rewrite !ArcGISFacts.messages_added_app, !app_nil_r.
Qed.

(** X11: [execute] on a registered weather name, from end to end.  With
    the interpreter file in place, the lookup exiting with status zero and
    budget enough for the listing and for [demand], [execute] returns
    after three children: the listing, the lookup, and
    [<python> -u -m cea.cli --scenario <scenario> demand --weather <path>]
    with the stripped output of the lookup as the path; what is shown and
    logged is the output of [demand]. *)
Theorem execute_runs_demand (fuel : nat)
    (scenario_path weather_name : string) (w : World) (content : string)
    (Hpth : python_pth host w = Some content) :
  let listing_argv :=
    [strip content; "-u"; "-m"; "cea.cli"; "weather-files"] in
  let lookup_argv :=
    [strip content; "-m"; "cea.cli"; "--scenario"; ""; "weather-path";
     weather_name] in
  let weather_path := strip (child_stdout (cli host lookup_argv)) in
  let demand_argv :=
    [strip content; "-u"; "-m"; "cea.cli"; "--scenario"; scenario_path;
     "demand"; "--weather"; weather_path] in
  let demand := cli host demand_argv in
  String.length (child_stdout (cli host listing_argv)) < fuel ->
  In weather_name
    (map rstrip (split_lines (child_stdout (cli host listing_argv)))) ->
  child_returncode (cli host lookup_argv) = 0%Z ->
  String.length (child_stdout demand) + child_linger demand < fuel ->
  let result := execute host fuel scenario_path weather_name w in
  fst result = Returned tt
  /\ spawned (events (snd result))
     = spawned (events w) ++ [listing_argv; lookup_argv; demand_argv]
  /\ messages_added (events (snd result))
     = messages_added (events w)
       ++ map rstrip (split_lines (child_stdout demand))
       ++ repeat "" (child_linger demand)
       ++ [""; child_stderr demand].
Proof.
  cbv zeta. intros Hfuel Hin Hrc Hdemand.
  unfold execute, bind.
  rewrite (execute_weather_path_listed _ _ _ _ _
             (listing_returns _ _ _ Hpth Hfuel) Hin).
  rewrite ArcGISFacts.cli_output_spec.
  change (python_pth host (record_event ?e w)) with (python_pth host w).
  rewrite Hpth. cbv zeta. unfold cli_output_argv; cbn [app].
  rewrite Hrc. cbn [Z.eqb].
  set (w2 := record_event (Spawned _) (record_event (Spawned _) w)).
  assert (Hpth2 : python_pth host w2 = Some content) by exact Hpth.
  rewrite (ArcGISFacts.run_cli_spec host fuel scenario_path _ w2 content
             Hpth2 Hdemand).
  cbn [fst snd]. split; [reflexivity|].
  rewrite ArcGISFacts.after_messages_events.
  unfold w2, run_cli_argv; cbn [events record_event app].
  split.
  - rewrite !spawned_app, spawned_logged, app_nil_r, <- !app_assoc.
    reflexivity.
  - rewrite !ArcGISFacts.messages_added_app,
      ArcGISFacts.messages_added_logged.
    cbn [messages_added flat_map app]. rewrite !app_nil_r.
    now rewrite <- app_assoc.
Qed.

(** ** What the helpers hand back *)

(** X12: the output of a helper query comes back stripped.  Whatever
    [_cli_output] returns (and so [get_weather], [get_radiation] and
    [get_surface_properties]) neither begins nor ends with white space:
    stripping it again, on either side, changes nothing. *)
Theorem helper_output_is_stripped (scenario_path : string)
    (args : list string) (w w' : World) (output : string)
    (Hout : _cli_output host scenario_path args w = (Returned output, w')) :
  lstrip output = output /\ rstrip output = output /\ strip output = output.
Proof.
  rewrite ArcGISFacts.cli_output_spec in Hout.
  destruct (python_pth host w) as [content|]; [|discriminate].
  cbv zeta in Hout. destruct (Z.eqb _ 0); [|discriminate].
  injection Hout as <- _.
  destruct (strip_fixed (child_stdout (cli host
             (cli_output_argv (strip content) scenario_path args))))
    as [Hl Hr].
  repeat split; [exact Hl|exact Hr|apply strip_idempotent].
Qed.

(** ** [DemandTool.getParameterInfo] *)

Lemma get_weather_names_same_files (fuel : nat) (w w0 : World) :
  files w0 = files w ->
  fst (get_weather_names host fuel w0) = fst (get_weather_names host fuel w).
Proof.
  intros Hfiles. rewrite !ArcGISFacts.get_weather_names_spec.
  rewrite (ArcGISFacts.python_pth_files host w w0 Hfiles).
  now destruct (python_pth host w).
Qed.

(** X13: the tool declares two required parameters, the scenario path and
    the weather name, and offers as weather names the list of
    [get_weather_names]; on an unchanged disk every name it offers is then
    resolved by [execute] through the lookup [weather-path <name>]. *)
Theorem offered_names_resolve_by_lookup (fuel : nat) (w w1 : World)
    (parameters : list ArcParameter)
    (Hinfo : getParameterInfo host fuel w = (Returned parameters, w1)) :
  exists scenario_parameter weather_parameter,
    parameters = [scenario_parameter; weather_parameter]
    /\ name scenario_parameter = "scenario_path"
    /\ name weather_parameter = "weather_name"
    /\ parameterType scenario_parameter = "Required"
    /\ parameterType weather_parameter = "Required"
    /\ filter_list scenario_parameter = []
    /\ get_weather_names host fuel w
       = (Returned (filter_list weather_parameter), w1)
    /\ (forall choice w0,
          files w0 = files w ->
          In choice (filter_list weather_parameter) ->
          exists w2,
            get_weather_names host fuel w0
            = (Returned (filter_list weather_parameter), w2)
            /\ execute_weather_path host fuel choice w0
               = get_weather host (Some choice) w2).
Proof.
  unfold getParameterInfo, bind in Hinfo.
  destruct (get_weather_names host fuel w) as [[names| |] w1'] eqn:Hnames;
    try discriminate.
  injection Hinfo as <- <-.
  eexists _, _. split; [reflexivity|]. cbn.
  repeat split.
  intros choice w0 Hfiles Hin.
  pose proof (get_weather_names_same_files fuel w w0 Hfiles) as Hsame.
  rewrite Hnames in Hsame. cbn [fst] in Hsame.
  destruct (get_weather_names host fuel w0) as [r w2] eqn:Hnames0.
  cbn [fst] in Hsame. subst r.
  exists w2. split; [reflexivity|].
  apply (execute_weather_path_listed _ _ _ _ _ Hnames0 Hin).
Qed.

(** X14: a blank line in the listing registers the empty name.  When the
    child's output has a line of white space only, the empty text is among
    the names [get_weather_names] returns, and [execute] resolves an empty
    weather argument through the lookup [weather-path] with the empty
    name. *)
Theorem blank_line_registers_empty_name (fuel : nat) (w : World)
    (content line : string)
    (Hpth : python_pth host w = Some content) :
  let listing_argv :=
    [strip content; "-u"; "-m"; "cea.cli"; "weather-files"] in
  String.length (child_stdout (cli host listing_argv)) < fuel ->
  In line (split_lines (child_stdout (cli host listing_argv))) ->
  blank line = true ->
  exists names,
    get_weather_names host fuel w
    = (Returned names, record_event (Spawned listing_argv) w)
    /\ In "" names
    /\ execute_weather_path host fuel "" w
       = _cli_output host "" ["weather-path"; ""]
           (record_event (Spawned listing_argv) w).
Proof.
  cbv zeta. intros Hfuel Hline Hblank.
  pose proof (listing_returns _ _ _ Hpth Hfuel) as Hnames.
  eexists. split; [exact Hnames|].
  assert (Hin : In "" (map rstrip (split_lines (child_stdout (cli host
                  [strip content; "-u"; "-m"; "cea.cli"; "weather-files"]))))).
  { apply in_map_iff. exists line. split; [|exact Hline].
    now apply rstrip_empty_iff. }
  split; [exact Hin|].
  apply (execute_weather_path_listed _ _ _ _ _ Hnames Hin).
Qed.

(** X15: without the interpreter file the tool can be neither opened nor
    run.  [getParameterInfo] and [execute] raise the [AssertionError] of
    [get_python_exe] and leave the world as it was; [updateMessages], for
    a folder that is on disk, raises it after the one check of the
    folder. *)
Theorem tool_needs_interpreter_file (fuel : nat)
    (scenario_path weather_name : string) (w : World)
    (Hpth : python_pth host w = None) :
  getParameterInfo host fuel w = (Raised pth_not_found, w)
  /\ execute host fuel scenario_path weather_name w
     = (Raised pth_not_found, w)
  /\ (on_disk host w scenario_path = true ->
      updateMessages host (Some scenario_path) w
      = (Raised pth_not_found,
         record_event (PathChecked scenario_path) w)).
Proof.
  assert (Hnames : get_weather_names host fuel w = (Raised pth_not_found, w))
    by now rewrite ArcGISFacts.get_weather_names_spec, Hpth.
  repeat split.
  - unfold getParameterInfo, bind. now rewrite Hnames.
  - unfold execute, execute_weather_path, bind. now rewrite Hnames.
  - intros Hdisk.
    now rewrite (ArcGISFacts.updateMessages_present host _ _ Hdisk), Hpth.
Qed.

(** X16: an empty listing registers no name.  When the [weather-files]
    child prints nothing, [get_weather_names] returns the empty list after
    one read, and [execute] treats every weather argument as a path: it is
    used as it is when it is on disk and ends in [.epw], and replaced by
    the default lookup otherwise. *)
Theorem empty_listing_registers_nothing (fuel : nat) (weather_name : string)
    (w : World) (content : string)
    (Hpth : python_pth host w = Some content)
    (Hfuel : 0 < fuel) :
  let listing_argv :=
    [strip content; "-u"; "-m"; "cea.cli"; "weather-files"] in
  child_stdout (cli host listing_argv) = "" ->
  let w1 := record_event (Spawned listing_argv) w in
  let w2 := record_event (PathChecked weather_name) w1 in
  get_weather_names host fuel w = (Returned [], w1)
  /\ execute_weather_path host fuel weather_name w
     = if on_disk host w weather_name && endswith weather_name ".epw"
       then (Returned weather_name, w2)
       else get_weather host None w2.
Proof.
  cbv zeta. intros Hsilent.
  assert (Hnames : get_weather_names host fuel w
                   = (Returned [],
                      record_event
                        (Spawned [strip content; "-u"; "-m"; "cea.cli";
                                  "weather-files"]) w)).
  { rewrite (listing_returns fuel w content Hpth)
      by (rewrite Hsilent; exact Hfuel).
    now rewrite Hsilent. }
  split; [exact Hnames|].
  rewrite (ArcGISFacts.execute_weather_path_unlisted host _ _ _ _ _ Hnames
             (fun H => H)).
  now destruct (on_disk host w weather_name && endswith weather_name ".epw").
Qed.

End Facts.

(** ** The statements on the demonstration machines *)

Lemma demo_pth : python_pth demo_host demo_world = Some (python +:+ lf).
Proof. reflexivity. Qed.

Lemma run_cli_ignores_exit_status_witness :
  child_returncode
    (cli demo_host [python; "-u"; "-m"; "cea.cli"; "--scenario"; "C:/broken";
                    "locate"; "get_radiation"]) = 1%Z
  /\ fst (run_cli demo_host 10 "C:/broken" ["locate"; "get_radiation"]
            demo_world) = Returned tt.
Proof.
  split; [reflexivity|].
  apply (proj2 (proj2 (run_cli_ignores_exit_status demo_host 0 10
                         "C:/broken" ["locate"; "get_radiation"]
                         demo_world))
           (python +:+ lf) demo_pth).
  apply Nat.ltb_lt. vm_compute. reflexivity.
Defined.

Lemma get_weather_names_witness :
  get_weather_names demo_host 20 demo_world
  = (Returned ["Zurich"; "city.epw"],
     record_event (Spawned listing_argv) demo_world)
  /\ get_weather_names
       (with_exit_status 3 (with_stderr "deprecation warning" demo_host))
       20 demo_world
     = (Returned ["Zurich"; "city.epw"],
        record_event (Spawned listing_argv) demo_world).
Proof.
  split; [exact ArcGISFacts.demo_weather_names|].
  rewrite (proj2 (get_weather_names_reads_stdout demo_host 20 demo_world _ _
                    ArcGISFacts.demo_weather_names)).
  exact ArcGISFacts.demo_weather_names.
Defined.

Lemma run_cli_log_text_witness :
  log_text demo_host
    (snd (run_cli demo_host 40 "C:/scenario"
            ["demand"; "--weather"; "C:/data/site.epw"] demo_world))
  = "reading inputdonewarning".
Proof.
  rewrite (proj1 (run_cli_log_text demo_host 40 "C:/scenario"
                    ["demand"; "--weather"; "C:/data/site.epw"] demo_world
                    (python +:+ lf) demo_pth
                    ltac:(apply Nat.ltb_lt; vm_compute; reflexivity))).
  vm_compute. reflexivity.
Defined.

Lemma updateMessages_message_witness :
  on_disk demo_host demo_world "C:/scenario" = true
  /\ param_errors (snd (updateMessages demo_host (Some "C:/scenario")
                          demo_world)) !! 0
     = Some no_radiation.
Proof.
  split; [reflexivity|].
  rewrite (updateMessages_message demo_host "C:/scenario" demo_world
             (python +:+ lf) eq_refl demo_pth eq_refl eq_refl).
  vm_compute. reflexivity.
Defined.

Lemma listed_name_witness :
  In "Zurich" ["Zurich"; "city.epw"]
  /\ fst (execute_weather_path demo_host 20 "Zurich" demo_world)
     = Returned "C:/cea/weather/Zurich.epw"
  /\ paths_checked
       (events (snd (execute_weather_path demo_host 20 "Zurich" demo_world)))
     = [].
Proof.
  assert (Hin : In "Zurich" ["Zurich"; "city.epw"]) by (left; reflexivity).
  destruct (listed_name_is_looked_up demo_host 20 "Zurich" demo_world _ _
              ArcGISFacts.demo_weather_names Hin) as (Hpath & _ & Hchecked).
  split; [exact Hin|]. split; [|exact Hchecked].
  rewrite Hpath. vm_compute. reflexivity.
Defined.

Lemma execute_stops_witness :
  let result := execute offline_host 40 "C:/scenario" "Zurich" demo_world in
  fst result
  = Raised (CalledProcessError 1
              [python; "-m"; "cea.cli"; "--scenario"; ""; "weather-path";
               "Zurich"])
  /\ spawned (events (snd result))
     = [listing_argv;
        [python; "-m"; "cea.cli"; "--scenario"; ""; "weather-path";
         "Zurich"]]
  /\ messages_added (events (snd result)) = [].
Proof.
  cbv zeta.
  destruct (execute_stops_on_failed_lookup offline_host 40 "C:/scenario"
              "Zurich" demo_world (python +:+ lf) eq_refl
              ltac:(apply Nat.ltb_lt; vm_compute; reflexivity)
              ltac:(left; reflexivity)
              ltac:(discriminate))
    as (Hout & Hspawned & Hmsgs & _).
  split; [exact Hout|]. split; [exact Hspawned|exact Hmsgs].
Defined.

Lemma execute_runs_demand_witness :
  let result := execute demo_host 40 "C:/scenario" "Zurich" demo_world in
  fst result = Returned tt
  /\ spawned (events (snd result))
     = [listing_argv;
        [python; "-m"; "cea.cli"; "--scenario"; ""; "weather-path";
         "Zurich"];
        [python; "-u"; "-m"; "cea.cli"; "--scenario"; "C:/scenario";
         "demand"; "--weather"; "C:/cea/weather/Zurich.epw"]]
  /\ messages_added (events (snd result))
     = ["reading input"; "done"; ""; "warning"].
Proof.
  cbv zeta.
  destruct (execute_runs_demand demo_host 40 "C:/scenario" "Zurich"
              demo_world (python +:+ lf) demo_pth
              ltac:(apply Nat.ltb_lt; vm_compute; reflexivity)
              ltac:(left; reflexivity)
              eq_refl
              ltac:(apply Nat.ltb_lt; vm_compute; reflexivity))
    as (Hout & Hspawned & Hmsgs).
  split; [exact Hout|]. split; [exact Hspawned|exact Hmsgs].
Defined.

Lemma helper_output_witness :
  child_stdout
    (cli demo_host [python; "-m"; "cea.cli"; "--scenario"; "C:/scenario";
                    "locate"; "get_radiation"])
  = "C:/scenario/outputs/get_radiation.csv" +:+ lf
  /\ fst (get_radiation demo_host "C:/scenario" demo_world)
     = Returned "C:/scenario/outputs/get_radiation.csv"
  /\ strip "C:/scenario/outputs/get_radiation.csv"
     = "C:/scenario/outputs/get_radiation.csv".
Proof.
  split; [reflexivity|]. split; [reflexivity|].
  apply (helper_output_is_stripped demo_host "C:/scenario"
           ["locate"; "get_radiation"] demo_world
           (record_event
              (Spawned [python; "-m"; "cea.cli"; "--scenario"; "C:/scenario";
                        "locate"; "get_radiation"]) demo_world)).
  reflexivity.
Defined.

Lemma offered_names_witness :
  exists scenario_parameter weather_parameter,
    fst (getParameterInfo demo_host 20 demo_world)
    = Returned [scenario_parameter; weather_parameter]
    /\ filter_list weather_parameter = ["Zurich"; "city.epw"]
    /\ fst (execute_weather_path demo_host 20 "city.epw" demo_world)
       = Returned "C:/cea/weather/city.epw.epw".
Proof.
  assert (Hinfo : getParameterInfo demo_host 20 demo_world
                  = (fst (getParameterInfo demo_host 20 demo_world),
                     snd (getParameterInfo demo_host 20 demo_world)))
    by apply surjective_pairing.
  assert (Hreturned : exists parameters,
             fst (getParameterInfo demo_host 20 demo_world)
             = Returned parameters)
    by (eexists; vm_compute; reflexivity).
  destruct Hreturned as [parameters Hreturned].
  rewrite Hreturned in Hinfo.
  destruct (offered_names_resolve_by_lookup demo_host 20 demo_world _ _ Hinfo)
    as (p0 & p1 & -> & _ & _ & _ & _ & _ & Hnames & Hresolve).
  exists p0, p1. split; [exact Hreturned|].
  rewrite ArcGISFacts.demo_weather_names in Hnames.
  injection Hnames as Hlist.
  split; [now symmetry|].
  destruct (Hresolve "city.epw" demo_world eq_refl
              ltac:(rewrite <- Hlist; right; left; reflexivity))
    as (w2 & Hnames2 & Hpath).
  rewrite Hpath.
  rewrite ArcGISFacts.demo_weather_names in Hnames2.
  injection Hnames2 as _ <-.
  vm_compute. reflexivity.
Defined.

Lemma blank_line_witness :
  child_stdout (cli padded_host listing_argv)
  = "Zurich" +:+ lf +:+ " " +:+ lf
  /\ fst (get_weather_names padded_host 20 demo_world)
     = Returned ["Zurich"; ""]
  /\ spawned (events (snd (execute_weather_path padded_host 20 ""
                             demo_world)))
     = [listing_argv;
        [python; "-m"; "cea.cli"; "--scenario"; ""; "weather-path"; ""]].
Proof.
  split; [reflexivity|].
  destruct (blank_line_registers_empty_name padded_host 20 demo_world
              (python +:+ lf) (" " +:+ lf) eq_refl
              ltac:(apply Nat.ltb_lt; vm_compute; reflexivity)
              ltac:(right; left; reflexivity)
              eq_refl)
    as (names & _ & _ & Hpath).
  split.
  - vm_compute. reflexivity.
  - rewrite Hpath. vm_compute. reflexivity.
Defined.

Lemma tool_needs_interpreter_file_witness :
  python_pth demo_host bare_world = None
  /\ getParameterInfo demo_host 20 bare_world
     = (Raised pth_not_found, bare_world)
  /\ execute demo_host 20 "C:/scenario" "Zurich" bare_world
     = (Raised pth_not_found, bare_world).
Proof.
  split; [reflexivity|].
  destruct (tool_needs_interpreter_file demo_host 20 "C:/scenario" "Zurich"
              bare_world eq_refl) as (Hinfo & Hrun & _).
  split; [exact Hinfo|exact Hrun].
Defined.

Lemma empty_listing_witness :
  child_stdout (cli silent_host listing_argv) = ""
  /\ fst (get_weather_names silent_host 1 demo_world) = Returned []
  /\ fst (execute_weather_path silent_host 1 "city.epw" demo_world)
     = Returned "city.epw"
  /\ fst (execute_weather_path silent_host 1 "Zurich" demo_world)
     = Returned "C:/cea/weather/default.epw".
Proof.
  split; [reflexivity|].
  pose proof (fun name =>
                empty_listing_registers_nothing silent_host 1 name demo_world
                  (python +:+ lf) eq_refl (Nat.lt_0_1) eq_refl) as H.
  split; [now rewrite (proj1 (H ""))|].
  split.
  - rewrite (proj2 (H "city.epw")). reflexivity.
  - rewrite (proj2 (H "Zurich")). vm_compute. reflexivity.
Defined.

End ArcGISMore.
